(** * Excel-Sheet-Merger: the merge engine of [src/App.tsx]

    A shallow embedding of the helper functions of [src/App.tsx]
    ([processMultipleFiles], [processSheetsInFile], [getHeadersFromData])
    and of the [handleMerge] callback of the [App] component, together
    with the properties the specification states about them.

    - Rows are JavaScript objects: their own enumerable properties are kept
      as a list of (key, value) entries in property enumeration order.
    - The spreadsheet codec ([XLSX], declared [any] in the source) and the
      browser [File] API are parameters of the development.
    - Effects ([await], exceptions, [console.error], React state setters)
      live in a state-and-exception monad over a [World] that carries the
      component state and the trace of effects performed so far. *)

From Stdlib Require Import ZArith NArith Ascii String.
From stdpp Require Import gmap strings list sorting.

Open Scope string_scope.
Open Scope list_scope.

(** ** Cell values and rows *)

(** Modelled from the spec: the [ExcelRow] type of [src/types.ts], which is
    imported by [App.tsx] but is not part of the sources at hand.  The
    specification describes a row as a mapping from column name to a value
    of type {string, number, boolean, null}.  No arithmetic is ever done on
    a cell, so numbers are kept as integers. *)
Inductive CellValue : Type :=
| VString (s : string)
| VNumber (n : Z)
| VBoolean (b : bool)
| VNull.

#[global] Instance CellValue_eq_dec : EqDecision CellValue.
Proof. solve_decision. Defined.

(** A row object: own enumerable string-keyed properties, in the order in
    which [Object.keys] and object spread enumerate them. *)
Abbreviation ExcelRow := (list (string * CellValue)).

(** [const SOURCE_COLUMN_NAME = 'TÊN NGUỒN';] (App.tsx line 10). *)
Definition SOURCE_COLUMN_NAME : string := "TÊN NGUỒN".

Module Obj.

(** *** Array-index keys

    ECMAScript enumerates the own keys of an ordinary object with the
    array indices first (canonical decimal strings below 2^32 - 1, in
    ascending numeric order) and the other string keys after them, in
    creation order. *)

Definition digit_val (a : ascii) : option N :=
  let c := N_of_ascii a in
  if ((48 <=? c) && (c <=? 57))%N then Some (c - 48)%N else None.

Fixpoint parse_digits (s : string) (acc : N) : option N :=
  match s with
  | EmptyString => Some acc
  | String a s' =>
      match digit_val a with
      | Some d => parse_digits s' (10 * acc + d)%N
      | None => None
      end
  end.

Definition array_index (k : string) : option N :=
  match k with
  | EmptyString => None
  | String a rest =>
      if (N_of_ascii a =? 48)%N then
        match rest with EmptyString => Some 0%N | _ => None end
      else
        match parse_digits k 0 with
        | Some n => if (n <? 2 ^ 32 - 1)%N then Some n else None
        | None => None
        end
  end.

(** *** Property access *)

(** [o[k]]: [None] stands for [undefined] (no such own property). *)
Fixpoint get (k : string) (o : ExcelRow) : option CellValue :=
  match o with
  | [] => None
  | (k', v) :: o' => if decide (k' = k) then Some v else get k o'
  end.

Definition has (k : string) (o : ExcelRow) : bool :=
  match get k o with Some _ => true | None => false end.

(** [Object.keys(o)]. *)
Definition keys (o : ExcelRow) : list string := o.*1.

(** Overwriting an existing property keeps its place in the order. *)
Fixpoint replace (k : string) (v : CellValue) (o : ExcelRow) : ExcelRow :=
  match o with
  | [] => []
  | (k', v') :: o' =>
      if decide (k' = k) then (k, v) :: o' else (k', v') :: replace k v o'
  end.

(** A new array-index key goes among the array indices, in numeric order. *)
Fixpoint insert_index (n : N) (k : string) (v : CellValue) (o : ExcelRow)
  : ExcelRow :=
  match o with
  | [] => [(k, v)]
  | (k', v') :: o' =>
      match array_index k' with
      | Some n' =>
          if (n' <? n)%N then (k', v') :: insert_index n k v o'
          else (k, v) :: o
      | None => (k, v) :: o
      end
  end.

(** [o[k] = v] on a fresh copy (CreateDataProperty). *)
Definition set (k : string) (v : CellValue) (o : ExcelRow) : ExcelRow :=
  if has k o then replace k v o
  else match array_index k with
       | Some n => insert_index n k v o
       | None => o ++ [(k, v)]
       end.

(** [{ ...dst, ...src }]: copy the properties of [src], in its own
    enumeration order, onto [dst]. *)
Definition spread (src dst : ExcelRow) : ExcelRow :=
  foldl (fun o kv => set kv.1 kv.2 o) dst src.

(** The representation invariant of a row object: no key occurs twice. *)
Definition wf (o : ExcelRow) : Prop := NoDup (keys o).

#[global] Instance wf_dec (o : ExcelRow) : Decision (wf o) :=
  NoDup_dec (keys o).

End Obj.

(** The object literal of App.tsx lines 31-34 and 67-70:
    [{ [SOURCE_COLUMN_NAME]: sheetName, ...row }]. *)
Definition tagged_row (sheetName : string) (row : ExcelRow) : ExcelRow :=
  Obj.spread row (Obj.set SOURCE_COLUMN_NAME (VString sheetName) []).

(** ** Header extraction *)

(** [Set.prototype.add] on a set kept in insertion order. *)
Definition Set_add (k : string) (s : list string) : list string :=
  if decide (k ∈ s) then s else s ++ [k].

(** App.tsx lines 87-99. *)
Definition getHeadersFromData (data : list ExcelRow) : list string :=
  if decide (length data = 0) then []
  else
    let headerSet :=
      foldl (fun hs row => foldl (fun hs key => Set_add key hs) hs (Obj.keys row))
            [] data in
    let headers := headerSet in
    if decide (SOURCE_COLUMN_NAME ∈ headers)
    then SOURCE_COLUMN_NAME :: filter (fun h => h ≠ SOURCE_COLUMN_NAME) headers
    else headers.

(** ** The codec and the file API

    [XLSX] is loaded from a CDN and declared [any] (App.tsx line 6); [File]
    is the browser's.  Both are parameters here.  A call that can reject or
    throw returns an [Outcome]. *)

Inductive JsExn : Type :=
| JsError (message : string)   (* an instance of [Error] *)
| JsOther.                     (* any other thrown value *)

Inductive Outcome (A : Type) : Type :=
| Ok (a : A)
| Throw (e : JsExn).
Arguments Ok {A} a.
Arguments Throw {A} e.

(** A parsed workbook: [workbook.SheetNames] and the own properties of
    [workbook.Sheets]. *)
Record Workbook (Worksheet : Type) : Type := {
  SheetNames : list string;
  Sheets : gmap string Worksheet;
}.
Arguments SheetNames {Worksheet} _.
Arguments Sheets {Worksheet} _.

Class Codec : Type := {
  File : Type;
  ArrayBuffer : Type;
  Worksheet : Type;
  (** [file.name] *)
  file_name : File -> string;
  (** [await file.arrayBuffer()] *)
  arrayBuffer : File -> Outcome ArrayBuffer;
  (** [XLSX.read(arrayBuffer, { type: 'array' })] *)
  XLSX_read : ArrayBuffer -> Outcome (Workbook Worksheet);
  (** [XLSX.utils.sheet_to_json(worksheet, { defval: null })]; the argument
      is [None] when [workbook.Sheets[sheetName]] is [undefined]. *)
  sheet_to_json : option Worksheet -> list ExcelRow;
}.

(** ** Component state, effects and the monad *)

Inductive MergeMode : Type := ModeFiles | ModeSheets.

#[global] Instance MergeMode_eq_dec : EqDecision MergeMode.
Proof. solve_decision. Defined.

(** An element of [singleFileSheets]: [{ name: string; selected: boolean }]. *)
Record SheetEntry : Type := {
  name : string;
  selected : bool;
}.

Section Effects.
Context `{Codec}.

(** The [useState] cells of [App] (App.tsx lines 237-242). *)
Record AppState : Type := {
  mergeMode : MergeMode;
  files : list File;
  singleFileSheets : list SheetEntry;
  mergedData : option (list ExcelRow);
  isLoading : bool;
  error : option string;
}.

(** What the code does to the outside, in program order. *)
Inductive Event : Type :=
| EvArrayBuffer (f : File)                       (* the bytes of [f] are read *)
| EvRead (b : ArrayBuffer)                       (* [XLSX.read] is called *)
| EvConsoleError (msg : string)
| EvSetIsLoading (b : bool)
| EvSetError (e : option string)
| EvSetMergedData (d : option (list ExcelRow)).

Record World : Type := {
  ui : AppState;
  trace : list Event;
}.

Definition M (A : Type) : Type := World -> Outcome A * World.

Definition ret {A} (a : A) : M A := fun w => (Ok a, w).

Definition bind {A B} (m : M A) (f : A -> M B) : M B :=
  fun w => match m w with
           | (Ok a, w') => f a w'
           | (Throw e, w') => (Throw e, w')
           end.

Definition throw {A} (e : JsExn) : M A := fun w => (Throw e, w).

(** [try { m } catch (e) { h e }] *)
Definition try_catch {A} (m : M A) (h : JsExn -> M A) : M A :=
  fun w => match m w with
           | (Ok a, w') => (Ok a, w')
           | (Throw e, w') => h e w'
           end.

(** [try { m } finally { fin }] *)
Definition try_finally {A} (m : M A) (fin : M unit) : M A :=
  fun w => match m w with
           | (r, w') =>
               match fin w' with
               | (Ok _, w'') => (r, w'')
               | (Throw e, w'') => (Throw e, w'')
               end
           end.

(** The world after the effects [evs] have been performed. *)
Definition log (evs : list Event) (w : World) : World :=
  {| ui := ui w; trace := trace w ++ evs |}.

Definition emit (ev : Event) : M unit := fun w => (Ok tt, log [ev] w).

Definition get_ui : M AppState := fun w => (Ok (ui w), w).

Definition of_outcome {A} (o : Outcome A) : M A := fun w => (o, w).

End Effects.

Notation "x <- m ;; k" := (bind m (fun x => k))
  (at level 100, m at next level, right associativity).
Notation "m ;;; k" := (bind m (fun _ => k))
  (at level 100, right associativity).

Section Program.
Context `{Codec}.

Definition await_arrayBuffer (file : File) : M ArrayBuffer :=
  emit (EvArrayBuffer file) ;;; of_outcome (arrayBuffer file).

Definition call_XLSX_read (b : ArrayBuffer) : M (Workbook Worksheet) :=
  emit (EvRead b) ;;; of_outcome (XLSX_read b).

Definition console_error (msg : string) : M unit := emit (EvConsoleError msg).

(** App.tsx lines 29-36 and 65-72: the rows of one sheet are pushed onto
    [allRows], each one tagged with the sheet's name. *)
Definition push_rows (sheetName : string) (jsonData allRows : list ExcelRow)
  : list ExcelRow :=
  if decide (0 < length jsonData)
  then foldl (fun acc row => acc ++ [tagged_row sheetName row]) allRows jsonData
  else allRows.

(** The body of the [try] block for one file, App.tsx lines 22-37. *)
Definition read_all_sheets (file : File) (allRows : list ExcelRow)
  : M (list ExcelRow) :=
  buf <- await_arrayBuffer file ;;
  workbook <- call_XLSX_read buf ;;
  ret (foldl (fun acc sheetName =>
                let worksheet := Sheets workbook !! sheetName in
                let jsonData := sheet_to_json worksheet in
                push_rows sheetName jsonData acc)
             allRows (SheetNames workbook)).

(** The [catch] clause of both merge functions, App.tsx lines 38-41 and
    74-77. *)
Definition rethrow_for {A} (file : File) (_ : JsExn) : M A :=
  console_error ("Error processing file " +:+ file_name file +:+ ":") ;;;
  throw (JsError ("Không thể xử lý file: " +:+ file_name file)).

(** The [for (const file of files)] loop, App.tsx lines 20-42. *)
Fixpoint for_each_file (files : list File) (allRows : list ExcelRow)
  : M (list ExcelRow) :=
  match files with
  | [] => ret allRows
  | file :: rest =>
      allRows' <- try_catch (read_all_sheets file allRows) (rethrow_for file) ;;
      for_each_file rest allRows'
  end.

(** App.tsx lines 17-45. *)
Definition processMultipleFiles (files : list File) : M (list ExcelRow) :=
  for_each_file files [].

(** App.tsx lines 53-79. *)
Definition processSheetsInFile (file : File) (selectedSheetNames : list string)
  : M (list ExcelRow) :=
  try_catch
    (buf <- await_arrayBuffer file ;;
     workbook <- call_XLSX_read buf ;;
     ret (foldl (fun acc sheetName =>
                   match Sheets workbook !! sheetName with
                   | None => acc                                   (* continue *)
                   | Some worksheet =>
                       let jsonData := sheet_to_json (Some worksheet) in
                       push_rows sheetName jsonData acc
                   end)
                [] selectedSheetNames))
    (rethrow_for file).

(** The state setters of [App].  A call is recorded in the trace and its
    value is taken as the state from then on (React hands it to the next
    render). *)
Definition setIsLoading (b : bool) : M unit :=
  fun w =>
    (Ok tt,
     {| ui := {| mergeMode := mergeMode (ui w); files := files (ui w);
                 singleFileSheets := singleFileSheets (ui w);
                 mergedData := mergedData (ui w);
                 isLoading := b; error := error (ui w) |};
        trace := trace w ++ [EvSetIsLoading b] |}).

Definition setError (e : option string) : M unit :=
  fun w =>
    (Ok tt,
     {| ui := {| mergeMode := mergeMode (ui w); files := files (ui w);
                 singleFileSheets := singleFileSheets (ui w);
                 mergedData := mergedData (ui w);
                 isLoading := isLoading (ui w); error := e |};
        trace := trace w ++ [EvSetError e] |}).

Definition setMergedData (d : option (list ExcelRow)) : M unit :=
  fun w =>
    (Ok tt,
     {| ui := {| mergeMode := mergeMode (ui w); files := files (ui w);
                 singleFileSheets := singleFileSheets (ui w);
                 mergedData := d;
                 isLoading := isLoading (ui w); error := error (ui w) |};
        trace := trace w ++ [EvSetMergedData d] |}).

(** App.tsx lines 323-327. *)
Definition store_result (data : list ExcelRow) : M unit :=
  if decide (length data = 0)
  then setError (Some "Không tìm thấy dữ liệu trong các file/sheet đã chọn.")
  else setMergedData (Some data).

(** [singleFileSheets.filter(s => s.selected).map(s => s.name)],
    App.tsx line 314. *)
Definition selected_names (sheets : list SheetEntry) : list string :=
  name <$> filter (fun s => selected s = true) sheets.

(** The [catch] clause of [handleMerge], App.tsx lines 328-330. *)
Definition report (e : JsExn) : M unit :=
  match e with
  | JsError message => setError (Some message) ;;; console_error message
  | JsOther =>
      setError (Some "Đã xảy ra lỗi không xác định.") ;;; console_error ""
  end.

(** The inside of the [try] block of [handleMerge], App.tsx lines
    310-327.  [st] holds the values of [files], [mergeMode] and
    [singleFileSheets] in the render that created the callback, [file0]
    is [files[0]].  The early [return] of line 318 leaves the block. *)
Definition merge_attempt (st : AppState) (file0 : File) : M unit :=
  match mergeMode st with
  | ModeFiles =>
      data <- processMultipleFiles (files st) ;;
      store_result data
  | ModeSheets =>
      let selectedSheets := selected_names (singleFileSheets st) in
      if decide (length selectedSheets = 0)
      then
        setError (Some "Vui lòng chọn ít nhất một sheet để gộp.") ;;;
        setIsLoading false
      else
        data <- processSheetsInFile file0 selectedSheets ;;
        store_result data
  end.

(** App.tsx lines 300-334.  None of the values the callback has captured
    is written during the merge.  [files.length === 0] is the empty
    list; otherwise [files[0]] is its head.  The [finally] clause runs
    on every way out of the [try] block. *)
Definition handleMerge : M unit :=
  st <- get_ui ;;
  match files st with
  | [] => setError (Some "Vui lòng chọn file.")
  | file0 :: _ =>
      setIsLoading true ;;;
      setError None ;;;
      setMergedData None ;;;
      try_finally
        (try_catch (merge_attempt st file0) report)
        (setIsLoading false)
  end.

End Program.

(** ** Vocabulary of the statements *)

(** The position at which [k] first occurs in [l] ([length l] if it never
    does). *)
Fixpoint index_of (k : string) (l : list string) : nat :=
  match l with
  | [] => 0
  | x :: l' => if decide (x = k) then 0 else S (index_of k l')
  end.

(** [a] is seen before [b] in the scan [l]. *)
Definition seen_before (l : list string) (a b : string) : Prop :=
  index_of a l < index_of b l.

(** What holds of the header set after the scan has consumed [seen]. *)
Definition scanned (seen hs : list string) : Prop :=
  NoDup hs /\ (forall k, k ∈ hs <-> k ∈ seen)
  /\ StronglySorted (seen_before seen) hs.

(** The keys of the rows in the order in which [getHeadersFromData] visits
    them: row by row, each row in [Object.keys] order. *)
Definition key_scan (data : list ExcelRow) : list string :=
  concat (Obj.keys <$> data).

Section Vocabulary.
Context `{Codec}.

(** What reading and parsing [file] yields. *)
Definition decode (file : File) : Outcome (Workbook Worksheet) :=
  match arrayBuffer file with
  | Ok buf => XLSX_read buf
  | Throw e => Throw e
  end.

(** The effects of decoding [file]: its bytes are read and, if that
    succeeds, handed to the parser. *)
Definition decode_events (file : File) : list Event :=
  EvArrayBuffer file ::
  match arrayBuffer file with
  | Ok buf => [EvRead buf]
  | Throw _ => []
  end.

(** The rows of the sheet called [sheetName], each with its provenance. *)
Definition sheet_rows (wb : Workbook Worksheet) (sheetName : string)
  : list ExcelRow :=
  tagged_row sheetName <$> sheet_to_json (Sheets wb !! sheetName).

Definition sheet_count (wb : Workbook Worksheet) (sheetName : string) : nat :=
  length (sheet_to_json (Sheets wb !! sheetName)).

(** The sheets of a workbook in the codec's order. *)
Definition workbook_rows (wb : Workbook Worksheet) : list ExcelRow :=
  concat (sheet_rows wb <$> SheetNames wb).

Definition workbook_count (wb : Workbook Worksheet) : nat :=
  sum_list (sheet_count wb <$> SheetNames wb).

(** The rows of the selected sheet called [sheetName]: none if the
    workbook has no such sheet. *)
Definition selected_rows (wb : Workbook Worksheet) (sheetName : string)
  : list ExcelRow :=
  match Sheets wb !! sheetName with
  | Some ws => tagged_row sheetName <$> sheet_to_json (Some ws)
  | None => []
  end.

(** The source rows a merge reads, each paired with the name of its
    sheet: those of a whole workbook, and those of the selected sheets. *)
Definition workbook_sources (wb : Workbook Worksheet)
  : list (string * ExcelRow) :=
  concat ((fun n => pair n <$> sheet_to_json (Sheets wb !! n))
          <$> SheetNames wb).

Definition selected_sources (wb : Workbook Worksheet) (sel : list string)
  : list (string * ExcelRow) :=
  concat ((fun n => match Sheets wb !! n with
                    | Some ws => pair n <$> sheet_to_json (Some ws)
                    | None => []
                    end) <$> sel).

(** The message of the error raised for [file]. *)
Definition decode_error (file : File) : JsExn :=
  JsError ("Không thể xử lý file: " +:+ file_name file).

(** Events that read or parse a file. *)
Definition is_decode (ev : Event) : bool :=
  match ev with
  | EvArrayBuffer _ | EvRead _ => true
  | _ => false
  end.

(** Every row carries a value other than [null] in the Provenance
    Column. *)
Definition provenance_non_null (rows : list ExcelRow) : Prop :=
  forall r, r ∈ rows ->
    exists v, Obj.get SOURCE_COLUMN_NAME r = Some v /\ v <> VNull.

(** The world after one state setter has run. *)
Definition set_loading (b : bool) (w : World) : World := (setIsLoading b w).2.
Definition set_error (e : option string) (w : World) : World := (setError e w).2.
Definition set_table (d : option (list ExcelRow)) (w : World) : World :=
  (setMergedData d w).2.

(** The first three statements of a merge that has files to work on. *)
Definition cleared (w : World) : World :=
  set_table None (set_error None (set_loading true w)).

(** The merge asked for in state [st] runs to its end: it yields [rows]
    and performs the effects [evs]. *)
Inductive merges_to (st : AppState) : list ExcelRow -> list Event -> Prop :=
| merges_files (wbs : list (Workbook Worksheet)) :
    mergeMode st = ModeFiles ->
    Forall2 (fun f wb => decode f = Ok wb) (files st) wbs ->
    merges_to st (concat (workbook_rows <$> wbs))
              (concat (decode_events <$> files st))
| merges_sheets (file0 : File) (rest : list File) (wb : Workbook Worksheet) :
    mergeMode st = ModeSheets ->
    files st = file0 :: rest ->
    selected_names (singleFileSheets st) <> [] ->
    decode file0 = Ok wb ->
    merges_to st
              (concat (selected_rows wb <$> selected_names (singleFileSheets st)))
              (decode_events file0).

(** The merge asked for in state [st] stops at [file], which does not
    decode, after the effects [evs]. *)
Inductive merge_fails (st : AppState) : File -> list Event -> Prop :=
| fails_files (pre post : list File) (file : File) (e : JsExn)
              (wbs : list (Workbook Worksheet)) :
    mergeMode st = ModeFiles ->
    files st = pre ++ file :: post ->
    Forall2 (fun f wb => decode f = Ok wb) pre wbs ->
    decode file = Throw e ->
    merge_fails st file (concat (decode_events <$> pre) ++ decode_events file)
| fails_sheets (file0 : File) (rest : list File) (e : JsExn) :
    mergeMode st = ModeSheets ->
    files st = file0 :: rest ->
    selected_names (singleFileSheets st) <> [] ->
    decode file0 = Throw e ->
    merge_fails st file0 (decode_events file0).

(** The effects of the [catch] clauses on the way out of a failed merge. *)
Definition failure_report (file : File) (w : World) : World :=
  log [EvConsoleError ("Không thể xử lý file: " +:+ file_name file)]
      (set_error (Some ("Không thể xử lý file: " +:+ file_name file))
         (log [EvConsoleError ("Error processing file " +:+ file_name file +:+ ":")]
              w)).

End Vocabulary.

(** ** A concrete codec

    A file is given by its name and by what the parser makes of its bytes;
    a worksheet by the rows that [sheet_to_json] extracts from it. *)

Module Demo.

Record DemoFile : Type := {
  demo_name : string;
  demo_content : Outcome (Workbook (list ExcelRow));
}.

Definition codec : Codec := {|
  File := DemoFile;
  ArrayBuffer := Outcome (Workbook (list ExcelRow));
  Worksheet := list ExcelRow;
  file_name := demo_name;
  arrayBuffer := fun f => Ok (demo_content f);
  XLSX_read := fun buf => buf;
  sheet_to_json := fun ws => default [] ws;
|}.

Definition workbook (sheets : list (string * list ExcelRow))
  : Workbook (list ExcelRow) :=
  {| SheetNames := sheets.*1; Sheets := list_to_map sheets |}.

(** The files of scenarios A and B of the specification. *)
Definition wb1 : Workbook (list ExcelRow) :=
  workbook [("Jan", [[("A", VNumber 1); ("B", VNumber 2)]]);
            ("Feb", [[("A", VNumber 3)]])].
Definition wb2 : Workbook (list ExcelRow) :=
  workbook [("Mar", [[("B", VNumber 5); ("C", VNumber 6)]])].
Definition wb3 : Workbook (list ExcelRow) :=
  workbook [("Jan", [[("A", VNumber 1)]]);
            ("Feb", [[("A", VNumber 2)]]);
            ("Mar", [[("A", VNumber 3)]])].

Definition F1 : DemoFile := {| demo_name := "F1.xlsx"; demo_content := Ok wb1 |}.
Definition F2 : DemoFile := {| demo_name := "F2.xlsx"; demo_content := Ok wb2 |}.
Definition F3 : DemoFile := {| demo_name := "F3.xlsx"; demo_content := Ok wb3 |}.

(** A file whose bytes the parser rejects. *)
Definition corrupt : DemoFile :=
  {| demo_name := "corrupt.xlsx"; demo_content := Throw JsOther |}.

(** A file with one sheet and no data row (scenario C). *)
Definition wb_empty : Workbook (list ExcelRow) := workbook [("Sheet1", [])].
Definition blank : DemoFile :=
  {| demo_name := "blank.xlsx"; demo_content := Ok wb_empty |}.

(** A sheet that has a column called like the Provenance Column, with an
    empty cell in its only data row. *)
Definition wb_clash : Workbook (list ExcelRow) :=
  workbook [("Jan", [[(SOURCE_COLUMN_NAME, VNull); ("A", VNumber 1)]])].
Definition clash : DemoFile :=
  {| demo_name := "clash.xlsx"; demo_content := Ok wb_clash |}.

Definition session (mode : MergeMode) (fs : list DemoFile)
           (sheets : list SheetEntry) (table : option (list ExcelRow))
  : @World codec :=
  {| ui := @Build_AppState codec mode fs sheets table false None;
     trace := [] |}.

(** A table left by an earlier merge. *)
Definition earlier : list ExcelRow :=
  [[(SOURCE_COLUMN_NAME, VString "Old"); ("A", VNumber 0)]].

Definition unselected (n : string) : SheetEntry :=
  {| name := n; selected := false |}.

(** Sessions that hold the table of an earlier merge. *)
Definition nothing_selected : @World codec :=
  session ModeSheets [F3] (unselected <$> ["Jan"; "Feb"; "Mar"]) (Some earlier).
Definition one_corrupt : @World codec :=
  session ModeFiles [F1; corrupt; F2] [] (Some earlier).
Definition only_blank : @World codec :=
  session ModeFiles [blank] [] (Some earlier).
Definition no_files : @World codec :=
  session ModeFiles [] [] (Some earlier).

End Demo.

(** ** The other handlers of [App]

    The handlers below only write the component state.  They are given as
    state transformers: each one maps the state of the render that
    created it to the state once all its setter calls have been applied. *)

Section Handlers.
Context `{Codec}.

(** The [SheetNames] of the workbook returned by
    [XLSX.read(arrayBuffer, { type: 'array', bookSheets: true })]
    (App.tsx line 263). *)
Variable XLSX_read_bookSheets : ArrayBuffer -> Outcome (list string).

Definition put_mode (m : MergeMode) (st : AppState) : AppState :=
  {| mergeMode := m; files := files st;
     singleFileSheets := singleFileSheets st; mergedData := mergedData st;
     isLoading := isLoading st; error := error st |}.

Definition put_files (fs : list File) (st : AppState) : AppState :=
  {| mergeMode := mergeMode st; files := fs;
     singleFileSheets := singleFileSheets st; mergedData := mergedData st;
     isLoading := isLoading st; error := error st |}.

Definition put_sheets (sheets : list SheetEntry) (st : AppState) : AppState :=
  {| mergeMode := mergeMode st; files := files st;
     singleFileSheets := sheets; mergedData := mergedData st;
     isLoading := isLoading st; error := error st |}.

Definition put_table (d : option (list ExcelRow)) (st : AppState) : AppState :=
  {| mergeMode := mergeMode st; files := files st;
     singleFileSheets := singleFileSheets st; mergedData := d;
     isLoading := isLoading st; error := error st |}.

Definition put_loading (b : bool) (st : AppState) : AppState :=
  {| mergeMode := mergeMode st; files := files st;
     singleFileSheets := singleFileSheets st; mergedData := mergedData st;
     isLoading := b; error := error st |}.

Definition put_error (e : option string) (st : AppState) : AppState :=
  {| mergeMode := mergeMode st; files := files st;
     singleFileSheets := singleFileSheets st; mergedData := mergedData st;
     isLoading := isLoading st; error := e |}.

(** [useMemo(() => (mergedData ? getHeadersFromData(mergedData) : []))],
    App.tsx line 244. *)
Definition headers (st : AppState) : list string :=
  match mergedData st with
  | Some data => getHeadersFromData data
  | None => []
  end.

(** App.tsx lines 246-251. *)
Definition resetState (st : AppState) : AppState :=
  put_error None (put_table None (put_sheets [] (put_files [] st))).

(** App.tsx lines 253-256. *)
Definition handleModeChange (mode : MergeMode) (st : AppState) : AppState :=
  resetState (put_mode mode st).

(** App.tsx lines 258-271. *)
Definition extractSheetNames (file : File) (st : AppState) : AppState :=
  let st1 := put_error None (put_loading true st) in
  let unreadable :=
    put_files []
      (put_error
         (Some "Không thể đọc được file. Vui lòng kiểm tra lại file có bị lỗi không.")
         st1) in
  let st2 :=
    match arrayBuffer file with
    | Ok buf =>
        match XLSX_read_bookSheets buf with
        | Ok names =>
            put_sheets ((fun n => {| name := n; selected := true |}) <$> names) st1
        | Throw _ => unreadable
        end
    | Throw _ => unreadable
    end in
  put_loading false st2.

(** App.tsx lines 273-285. *)
Definition handleFilesSelected (selectedFiles : list File) (st : AppState)
  : AppState :=
  let st1 := put_error None (put_table None st) in
  match mergeMode st with
  | ModeSheets =>
      match selectedFiles with
      | singleFile :: _ => extractSheetNames singleFile (put_files [singleFile] st1)
      | [] => st1
      end
  | ModeFiles => put_files selectedFiles st1
  end.

(** App.tsx lines 287-293. *)
Definition handleSheetSelectionChange (sheetName : string) (isSelected : bool)
           (st : AppState) : AppState :=
  put_sheets
    ((fun sheet =>
        if decide (name sheet = sheetName)
        then {| name := name sheet; selected := isSelected |}
        else sheet) <$> singleFileSheets st)
    st.

(** App.tsx lines 295-297. *)
Definition toggleAllSheets (select : bool) (st : AppState) : AppState :=
  put_sheets
    ((fun s => {| name := name s; selected := select |}) <$> singleFileSheets st)
    st.

(** App.tsx line 342. *)
Definition isMergeDisabled (st : AppState) : bool :=
  bool_decide (length (files st) = 0)
  || isLoading st
  || (bool_decide (mergeMode st = ModeSheets)
      && bool_decide (0 < length (singleFileSheets st))
      && negb (existsb selected (singleFileSheets st))).

End Handlers.

(** ** Export and preview *)

(** The calls that [exportToExcel] makes on the codec, in order. *)
Inductive XlsxCall : Type :=
| CallJsonToSheet (data : list ExcelRow)
| CallBookNew
| CallBookAppendSheet (sheetName : string)
| CallWriteFile (fileName : string).

(** App.tsx lines 106-111. *)
Definition exportToExcel (data : list ExcelRow) (fileName : string)
  : list XlsxCall :=
  [CallJsonToSheet data; CallBookNew; CallBookAppendSheet "MergedData";
   CallWriteFile (fileName +:+ ".xlsx")].

(** App.tsx lines 336-340. *)
Definition handleDownload `{Codec} (st : AppState) : list XlsxCall :=
  match mergedData st with
  | Some data =>
      if decide (0 < length data) then exportToExcel data "DuLieuGop" else []
  | None => []
  end.

Section Preview.

(** [String(x)] for a number cell [x], and [String(row[header])] for a row
    without an own property [header]: the latter is ["undefined"] unless
    [header] names a member of [Object.prototype]. *)
Variable String_of_number : Z -> string.
Variable String_of_inherited : string -> string.

(** [String(v)] for an own cell value. *)
Definition js_String (v : CellValue) : string :=
  match v with
  | VString s => s
  | VNumber n => String_of_number n
  | VBoolean true => "true"
  | VBoolean false => "false"
  | VNull => "null"
  end.

(** [row[header] === null ? '' : String(row[header])], App.tsx line 221. *)
Definition cell_text (row : ExcelRow) (header : string) : string :=
  match Obj.get header row with
  | Some VNull => ""
  | Some v => js_String v
  | None => String_of_inherited header
  end.

(** The cells of the [tbody] of [DataTable], App.tsx lines 217-225. *)
Definition DataTable_body (data : list ExcelRow) (headers : list string)
  : list (list string) :=
  (fun row => cell_text row <$> headers) <$> take 100 data.

End Preview.

(** ** Vocabulary for the handlers *)

(** What the user can do to the sheet selection. *)
Inductive SelectionAction : Type :=
| Tick (sheetName : string) (isSelected : bool)
| TickAll (select : bool).

Definition apply_action `{Codec} (st : AppState) (a : SelectionAction)
  : AppState :=
  match a with
  | Tick n b => handleSheetSelectionChange n b st
  | TickAll b => toggleAllSheets b st
  end.

(** The first key of the object is an array index. *)
Definition index_first (o : ExcelRow) : Prop :=
  exists k v rest, o = (k, v) :: rest /\ is_Some (Obj.array_index k).

(** The header set of [getHeadersFromData] after the scan of [data] from
    the set [hs], before the Provenance Column is moved. *)
Definition header_set (hs : list string) (data : list ExcelRow) : list string :=
  foldl (fun hs row => foldl (fun hs key => Set_add key hs) hs (Obj.keys row))
        hs data.

Section OutcomeVocabulary.
Context `{Codec}.

(** Events that are calls of a state setter. *)
Definition is_setter (ev : Event) : bool :=
  match ev with
  | EvSetIsLoading _ | EvSetError _ | EvSetMergedData _ => true
  | _ => false
  end.

(** The four ways a merge with files can end. *)
Inductive merge_end (w w' : World) : list Event -> Prop :=
| end_table (rows : list ExcelRow) (evs : list Event) :
    merges_to (ui w) rows evs -> rows <> [] ->
    mergedData (ui w') = Some rows -> error (ui w') = None ->
    merge_end w w' (evs ++ [EvSetMergedData (Some rows); EvSetIsLoading false])
| end_empty (evs : list Event) :
    merges_to (ui w) [] evs ->
    mergedData (ui w') = None ->
    error (ui w') = Some "Không tìm thấy dữ liệu trong các file/sheet đã chọn." ->
    merge_end w w'
      (evs ++ [EvSetError
                 (Some "Không tìm thấy dữ liệu trong các file/sheet đã chọn.");
               EvSetIsLoading false])
| end_failed (file : File) (evs : list Event) :
    merge_fails (ui w) file evs ->
    mergedData (ui w') = None ->
    error (ui w') = Some ("Không thể xử lý file: " +:+ file_name file) ->
    merge_end w w'
      (evs ++ [EvConsoleError ("Error processing file " +:+ file_name file +:+ ":");
               EvSetError (Some ("Không thể xử lý file: " +:+ file_name file));
               EvConsoleError ("Không thể xử lý file: " +:+ file_name file);
               EvSetIsLoading false])
| end_no_selection :
    mergeMode (ui w) = ModeSheets ->
    selected_names (singleFileSheets (ui w)) = [] ->
    mergedData (ui w') = None ->
    error (ui w') = Some "Vui lòng chọn ít nhất một sheet để gộp." ->
    merge_end w w'
      [EvSetError (Some "Vui lòng chọn ít nhất một sheet để gộp.");
       EvSetIsLoading false; EvSetIsLoading false].

End OutcomeVocabulary.

Module DemoUI.

(** The sheet names of a file, read without the cells. *)
Definition read_names (buf : Outcome (Workbook (list ExcelRow)))
  : Outcome (list string) :=
  match buf with
  | Ok wb => Ok (SheetNames wb)
  | Throw e => Throw e
  end.

Definition state (mode : MergeMode) (fs : list Demo.DemoFile)
           (sheets : list SheetEntry) (table : option (list ExcelRow))
  : @AppState Demo.codec :=
  @Build_AppState Demo.codec mode fs sheets table false None.

Definition listed (n : string) : SheetEntry := {| name := n; selected := true |}.

End DemoUI.

(** * Properties *)

(** ** Row objects: reading after writing *)

Module ObjFacts.
Import Obj.

Lemma get_None_iff (k : string) (o : ExcelRow) :
  get k o = None <-> k ∉ keys o.
Proof.
  unfold keys. induction o as [|[k' v'] o IH]; simpl.
  - split; [intros _; apply not_elem_of_nil | done].
  - rewrite not_elem_of_cons. destruct (decide (k' = k)) as [->|Hne].
    + split; [done | intros [? _]; done].
    + rewrite IH. split; [intros ?; split; [congruence | done] | intros [_ ?]; done].
Qed.

Lemma has_false (k : string) (o : ExcelRow) :
  has k o = false <-> get k o = None.
Proof. unfold has. destruct (get k o); split; congruence. Qed.

Lemma get_app (k : string) (o1 o2 : ExcelRow) :
  get k (o1 ++ o2) = match get k o1 with Some v => Some v | None => get k o2 end.
Proof.
  induction o1 as [|[k' v'] o1 IH]; simpl; [done|].
  destruct (decide (k' = k)); [done | apply IH].
Qed.

Lemma get_replace_eq (k : string) (v : CellValue) (o : ExcelRow) :
  has k o = true -> get k (replace k v o) = Some v.
Proof.
  unfold has. induction o as [|[k' v'] o IH]; simpl; [done|].
  destruct (decide (k' = k)) as [->|Hne]; simpl.
  - intros _. by rewrite decide_True.
  - intros Hk. rewrite decide_False by done. by apply IH.
Qed.

Lemma get_replace_ne (k k' : string) (v : CellValue) (o : ExcelRow) :
  k <> k' -> get k' (replace k v o) = get k' o.
Proof.
  intros Hne. induction o as [|[k0 v0] o IH]; simpl; [done|].
  destruct (decide (k0 = k)) as [->|Hk0]; simpl.
  - by rewrite !decide_False.
  - destruct (decide (k0 = k')); [done | apply IH].
Qed.

Lemma get_insert_index_eq (n : N) (k : string) (v : CellValue) (o : ExcelRow) :
  get k o = None -> get k (insert_index n k v o) = Some v.
Proof.
  induction o as [|[k' v'] o IH]; simpl.
  - intros _. by rewrite decide_True.
  - destruct (decide (k' = k)) as [->|Hne]; [done|]. intros Hk.
    destruct (array_index k') as [n'|]; [destruct (n' <? n)%N|]; simpl.
    + rewrite decide_False by done. by apply IH.
    + by rewrite decide_True.
    + by rewrite decide_True.
Qed.

Lemma get_insert_index_ne (n : N) (k k' : string) (v : CellValue) (o : ExcelRow) :
  k <> k' -> get k' (insert_index n k v o) = get k' o.
Proof.
  intros Hne. induction o as [|[k0 v0] o IH]; simpl.
  - by rewrite decide_False.
  - destruct (array_index k0) as [n'|]; [destruct (n' <? n)%N|]; simpl.
    + destruct (decide (k0 = k')); [done | apply IH].
    + by rewrite (decide_False (P := k = k')).
    + by rewrite (decide_False (P := k = k')).
Qed.

Lemma get_set_eq (k : string) (v : CellValue) (o : ExcelRow) :
  get k (set k v o) = Some v.
Proof.
  unfold set. destruct (has k o) eqn:Hk.
  - by apply get_replace_eq.
  - apply has_false in Hk. destruct (array_index k).
    + by apply get_insert_index_eq.
    + rewrite get_app, Hk. simpl. by rewrite decide_True.
Qed.

Lemma get_set_ne (k k' : string) (v : CellValue) (o : ExcelRow) :
  k <> k' -> get k' (set k v o) = get k' o.
Proof.
  intros Hne. unfold set. destruct (has k o).
  - by apply get_replace_ne.
  - destruct (array_index k).
    + by apply get_insert_index_ne.
    + rewrite get_app. simpl. rewrite decide_False by done.
      by destruct (get k' o).
Qed.

(** Reading a key of [{ ...dst, ...src }]: the value of [src] if it has
    the key, that of [dst] otherwise. *)
Lemma get_spread (k : string) (src dst : ExcelRow) :
  wf src ->
  get k (spread src dst)
  = match get k src with Some v => Some v | None => get k dst end.
Proof.
  unfold wf, keys, spread. revert dst.
  induction src as [|[k1 v1] src IH]; intros dst Hwf; simpl in *; [done|].
  apply NoDup_cons in Hwf as [Hk1 Hwf]. rewrite IH by done.
  destruct (decide (k1 = k)) as [->|Hne].
  - apply get_None_iff in Hk1. rewrite Hk1. apply get_set_eq.
  - by rewrite get_set_ne.
Qed.

Lemma get_tagged_row (sheetName : string) (row : ExcelRow) :
  wf row ->
  get SOURCE_COLUMN_NAME (tagged_row sheetName row)
  = match get SOURCE_COLUMN_NAME row with
    | Some v => Some v
    | None => Some (VString sheetName)
    end.
Proof.
  intros Hwf. unfold tagged_row. rewrite get_spread by done.
  by rewrite get_set_eq.
Qed.

End ObjFacts.

(** ** Header extraction *)

Section Headers.

Lemma index_of_lt (k : string) (l : list string) :
  k ∈ l -> index_of k l < length l.
Proof.
  induction l as [|x l IH]; simpl.
  - intros Hk. by apply elem_of_nil in Hk.
  - intros Hk. destruct (decide (x = k)); [lia|].
    apply elem_of_cons in Hk as [->|Hk]; [done|]. specialize (IH Hk). lia.
Qed.

Lemma index_of_app_l (k : string) (l1 l2 : list string) :
  k ∈ l1 -> index_of k (l1 ++ l2) = index_of k l1.
Proof.
  induction l1 as [|x l1 IH]; simpl.
  - intros Hk. by apply elem_of_nil in Hk.
  - intros Hk. destruct (decide (x = k)); [done|].
    apply elem_of_cons in Hk as [->|Hk]; [done|]. by rewrite IH.
Qed.

Lemma index_of_app_r (k : string) (l1 l2 : list string) :
  k ∉ l1 -> index_of k (l1 ++ l2) = length l1 + index_of k l2.
Proof.
  induction l1 as [|x l1 IH]; simpl; [done|].
  intros Hk. apply not_elem_of_cons in Hk as [Hne Hk].
  rewrite decide_False by done. by rewrite IH.
Qed.

Lemma seen_before_app (seen more : list string) (a b : string) :
  a ∈ seen -> b ∈ seen ->
  seen_before seen a b -> seen_before (seen ++ more) a b.
Proof.
  unfold seen_before. intros Ha Hb Hab. by rewrite !index_of_app_l.
Qed.

Lemma StronglySorted_seen_app (seen more hs : list string) :
  (forall k, k ∈ hs -> k ∈ seen) ->
  StronglySorted (seen_before seen) hs ->
  StronglySorted (seen_before (seen ++ more)) hs.
Proof.
  induction hs as [|a hs IH]; intros Hin Hs; [constructor|].
  apply StronglySorted_cons in Hs as [Ha Hs].
  apply StronglySorted_cons. split.
  - apply Forall_forall. intros b Hb.
    apply seen_before_app; [apply Hin; left | apply Hin; by right |].
    by eapply Forall_forall in Ha.
  - apply IH; [|done]. intros k Hk. apply Hin. by right.
Qed.

Lemma scanned_add (seen hs : list string) (k : string) :
  scanned seen hs -> scanned (seen ++ [k]) (Set_add k hs).
Proof.
  intros (Hnd & Hin & Hs). unfold Set_add.
  destruct (decide (k ∈ hs)) as [Hk|Hk].
  - split; [done|]. split.
    + intros k'. rewrite elem_of_app, list_elem_of_singleton, Hin.
      split; [by left | intros [?| ->]; [done | by apply Hin]].
    + apply StronglySorted_seen_app; [intros ?; apply Hin | done].
  - split; [|split].
    + apply NoDup_app. split; [done|]. split; [|apply NoDup_singleton].
      intros x Hx ->%list_elem_of_singleton. done.
    + intros k'. by rewrite !elem_of_app, Hin.
    + apply StronglySorted_app. split; [|split].
      * intros a b Ha ->%list_elem_of_singleton. unfold seen_before.
        assert (k ∉ seen) by (by rewrite <- Hin).
        rewrite index_of_app_l by (by apply Hin).
        rewrite index_of_app_r by done.
        apply Hin, index_of_lt in Ha. simpl. rewrite decide_True by done. lia.
      * apply StronglySorted_seen_app; [intros ?; apply Hin | done].
      * repeat constructor.
Qed.

Lemma scanned_keys (ks seen hs : list string) :
  scanned seen hs ->
  scanned (seen ++ ks) (foldl (fun hs key => Set_add key hs) hs ks).
Proof.
  revert seen hs. induction ks as [|k ks IH]; intros seen hs Hsc; simpl.
  - by rewrite app_nil_r.
  - rewrite (assoc_L _ seen [k] ks : seen ++ k :: ks = (seen ++ [k]) ++ ks).
    apply IH. by apply scanned_add.
Qed.

Lemma scanned_rows (data : list ExcelRow) (seen hs : list string) :
  scanned seen hs ->
  scanned (seen ++ key_scan data)
    (foldl (fun hs row => foldl (fun hs key => Set_add key hs) hs (Obj.keys row))
           hs data).
Proof.
  unfold key_scan. revert seen hs.
  induction data as [|row data IH]; intros seen hs Hsc; simpl.
  - by rewrite app_nil_r.
  - rewrite (assoc_L (++)). apply IH. by apply scanned_keys.
Qed.

Lemma scanned_nil : scanned [] [].
Proof.
  split; [apply NoDup_nil_2 | split; [done | constructor]].
Qed.

Lemma StronglySorted_filter_ne (R : string -> string -> Prop) (x : string)
      (l : list string) :
  StronglySorted R l -> StronglySorted R (filter (fun h => h <> x) l).
Proof.
  induction l as [|a l IH]; intros Hs; [constructor|].
  apply StronglySorted_cons in Hs as [Ha Hs].
  rewrite filter_cons. destruct (decide (a <> x)); [|by apply IH].
  apply StronglySorted_cons. split; [|by apply IH].
  apply Forall_forall. intros b [_ Hb]%list_elem_of_filter.
  by eapply Forall_forall in Ha.
Qed.

Lemma elem_of_key_scan (k : string) (data : list ExcelRow) :
  k ∈ key_scan data <-> exists row, row ∈ data /\ k ∈ Obj.keys row.
Proof.
  unfold key_scan. induction data as [|row data IH]; simpl.
  - split; [intros []%elem_of_nil | intros (? & []%elem_of_nil & _)].
  - rewrite elem_of_app, IH. split.
    + intros [Hk|(row' & Hr & Hk)].
      * exists row. split; [left | done].
      * exists row'. split; [by right | done].
    + intros (row' & [->|Hr]%elem_of_cons & Hk); [by left|].
      right. by exists row'.
Qed.

End Headers.

(** C2. [getHeadersFromData] returns a duplicate-free list that contains
    exactly the keys present in some row; the list is the Provenance Column
    (when it is among the keys) followed by the remaining keys in the order
    of their first appearance in the row scan; on the empty table it
    returns the empty list. *)
Theorem getHeadersFromData_first_seen (data : list ExcelRow) :
  let hs := getHeadersFromData data in
  NoDup hs
  /\ (forall k, k ∈ hs <-> exists row, row ∈ data /\ k ∈ Obj.keys row)
  /\ (exists rest,
        hs = (if decide (SOURCE_COLUMN_NAME ∈ key_scan data)
              then [SOURCE_COLUMN_NAME] else []) ++ rest
        /\ (SOURCE_COLUMN_NAME ∉ rest)
        /\ StronglySorted (seen_before (key_scan data)) rest)
  /\ getHeadersFromData [] = [].
Proof.
  cbv zeta. split; [|split; [|split]]; [..|reflexivity].
  all: unfold getHeadersFromData.
  all: destruct (decide (length data = 0)) as [Hlen|Hlen];
    [destruct data; [clear Hlen | done] | ].
  - apply NoDup_nil_2.
  - destruct (scanned_rows data [] [] scanned_nil) as (Hnd & Hin & Hs).
    simpl in *. case_decide as Hsrc; [|done].
    apply NoDup_cons. split; [|by apply NoDup_filter].
    rewrite list_elem_of_filter. by intros [? _].
  - intros k. split; [intros []%elem_of_nil | intros (? & []%elem_of_nil & _)].
  - destruct (scanned_rows data [] [] scanned_nil) as (Hnd & Hin & Hs).
    simpl in *. intros k. rewrite <- elem_of_key_scan, <- Hin.
    case_decide as Hsrc; [|done].
    rewrite elem_of_cons, list_elem_of_filter.
    split; [intros [->|[_ ?]]; done|].
    intros Hk. destruct (decide (k = SOURCE_COLUMN_NAME)); [by left | by right].
  - exists []. destruct (decide _) as [[]%elem_of_nil|_].
    split; [done|]. split; [apply not_elem_of_nil | constructor].
  - destruct (scanned_rows data [] [] scanned_nil) as (Hnd & Hin & Hs).
    simpl in *.
    destruct (decide (SOURCE_COLUMN_NAME ∈ key_scan data)) as [Hsrc|Hsrc].
    + rewrite decide_True by (by apply Hin).
      eexists. split; [reflexivity|]. split.
      * rewrite list_elem_of_filter. by intros [? _].
      * by apply StronglySorted_filter_ne.
    + rewrite decide_False by (by rewrite Hin).
      eexists. split; [reflexivity|]. split; [by rewrite Hin | done].
Qed.

(** ** The two merge functions *)

Section Merge.
Context `{Codec}.

Lemma log_nil (w : World) : log [] w = w.
Proof. destruct w. unfold log. simpl. by rewrite app_nil_r. Qed.

Lemma log_log (evs1 evs2 : list Event) (w : World) :
  log evs2 (log evs1 w) = log (evs1 ++ evs2) w.
Proof. unfold log. simpl. by rewrite (assoc_L (++)). Qed.

Lemma push_rows_app (sheetName : string) (jsonData allRows : list ExcelRow) :
  push_rows sheetName jsonData allRows
  = allRows ++ (tagged_row sheetName <$> jsonData).
Proof.
  unfold push_rows. case_decide as Hlen.
  - clear Hlen. revert allRows.
    induction jsonData as [|row rows IH]; intros allRows; simpl.
    + by rewrite app_nil_r.
    + rewrite IH. by rewrite <- (assoc_L (++)).
  - destruct jsonData; simpl in *; [by rewrite app_nil_r | lia].
Qed.

Lemma fold_sheets (wb : Workbook Worksheet) (names : list string)
      (allRows : list ExcelRow) :
  foldl (fun acc sheetName =>
           let worksheet := Sheets wb !! sheetName in
           let jsonData := sheet_to_json worksheet in
           push_rows sheetName jsonData acc) allRows names
  = allRows ++ concat (sheet_rows wb <$> names).
Proof.
  revert allRows. induction names as [|n names IH]; intros allRows; simpl.
  - by rewrite app_nil_r.
  - rewrite IH, push_rows_app. by rewrite <- (assoc_L (++)).
Qed.

Lemma fold_selected (wb : Workbook Worksheet) (names : list string)
      (allRows : list ExcelRow) :
  foldl (fun acc sheetName =>
           match Sheets wb !! sheetName with
           | None => acc
           | Some worksheet =>
               let jsonData := sheet_to_json (Some worksheet) in
               push_rows sheetName jsonData acc
           end) allRows names
  = allRows ++ concat (selected_rows wb <$> names).
Proof.
  revert allRows. induction names as [|n names IH]; intros allRows; simpl.
  - by rewrite app_nil_r.
  - rewrite IH. unfold selected_rows at 2.
    destruct (Sheets wb !! n); simpl; [|done].
    rewrite push_rows_app. by rewrite <- (assoc_L (++)).
Qed.

Lemma read_all_sheets_ok (file : File) (wb : Workbook Worksheet)
      (allRows : list ExcelRow) (w : World) :
  decode file = Ok wb ->
  read_all_sheets file allRows w
  = (Ok (allRows ++ workbook_rows wb), log (decode_events file) w).
Proof.
  unfold decode, read_all_sheets, decode_events, await_arrayBuffer,
    call_XLSX_read, bind, emit, of_outcome, ret. simpl.
  destruct (arrayBuffer file) as [buf|e]; [|done]. intros ->.
  by rewrite log_log, fold_sheets.
Qed.

Lemma read_all_sheets_fail (file : File) (e : JsExn)
      (allRows : list ExcelRow) (w : World) :
  decode file = Throw e ->
  read_all_sheets file allRows w = (Throw e, log (decode_events file) w).
Proof.
  unfold decode, read_all_sheets, decode_events, await_arrayBuffer,
    call_XLSX_read, bind, emit, of_outcome, ret. simpl.
  destruct (arrayBuffer file) as [buf|e']; [|by intros [= ->]].
  intros ->. by rewrite log_log.
Qed.

(** Every file decodes: the loop appends the rows of every workbook. *)
Lemma for_each_file_ok (fs : list File) (wbs : list (Workbook Worksheet))
      (allRows : list ExcelRow) (w : World) :
  Forall2 (fun f wb => decode f = Ok wb) fs wbs ->
  for_each_file fs allRows w
  = (Ok (allRows ++ concat (workbook_rows <$> wbs)),
     log (concat (decode_events <$> fs)) w).
Proof.
  intros Hdec. revert allRows w.
  induction Hdec as [|f wb fs wbs Hf _ IH]; intros allRows w; simpl.
  - by rewrite app_nil_r, log_nil.
  - unfold bind, try_catch. rewrite (read_all_sheets_ok _ _ _ _ Hf).
    rewrite IH, log_log. by rewrite <- (assoc_L (++)).
Qed.

(** The first file that does not decode ends the loop. *)
Lemma for_each_file_fail (pre post : list File) (f : File) (e : JsExn)
      (wbs : list (Workbook Worksheet)) (allRows : list ExcelRow) (w : World) :
  Forall2 (fun f wb => decode f = Ok wb) pre wbs ->
  decode f = Throw e ->
  for_each_file (pre ++ f :: post) allRows w
  = (Throw (decode_error f),
     log (concat (decode_events <$> pre) ++ decode_events f
          ++ [EvConsoleError ("Error processing file " +:+ file_name f +:+ ":")])
         w).
Proof.
  intros Hdec Hf. revert allRows w.
  induction Hdec as [|f' wb fs wbs Hf' _ IH]; intros allRows w; simpl.
  - unfold bind, try_catch. rewrite (read_all_sheets_fail _ _ _ _ Hf).
    unfold rethrow_for, console_error, bind, emit, throw.
    by rewrite log_log.
  - unfold bind, try_catch. rewrite (read_all_sheets_ok _ _ _ _ Hf').
    rewrite IH, log_log. by rewrite <- (assoc_L (++)).
Qed.

End Merge.

Section MergeClaims.
Context `{Codec}.

Lemma length_concat_sum {A} (ls : list (list A)) :
  length (concat ls) = sum_list (length <$> ls).
Proof.
  induction ls as [|l ls IH]; simpl; [done|]. by rewrite length_app, IH.
Qed.

Lemma length_workbook_rows (wb : Workbook Worksheet) :
  length (workbook_rows wb) = workbook_count wb.
Proof.
  unfold workbook_rows, workbook_count. rewrite length_concat_sum.
  f_equal. rewrite <- list_fmap_compose. apply list_fmap_ext.
  intros _ n _. unfold sheet_rows, sheet_count. simpl. apply length_fmap.
Qed.

Lemma elem_of_concat {A} (x : A) (ls : list (list A)) :
  x ∈ concat ls <-> exists l, l ∈ ls /\ x ∈ l.
Proof.
  induction ls as [|l ls IH]; simpl.
  - split; [intros []%elem_of_nil | intros (? & []%elem_of_nil & _)].
  - rewrite elem_of_app, IH. split.
    + intros [Hx|(l' & Hl & Hx)]; [exists l | exists l'];
        (split; [|done]); [left | by right].
    + intros (l' & [->|Hl]%elem_of_cons & Hx); [by left|].
      right. by exists l'.
Qed.

Lemma elem_of_workbook_rows (r : ExcelRow) (wb : Workbook Worksheet) :
  r ∈ workbook_rows wb <->
  exists n src, n ∈ SheetNames wb /\ src ∈ sheet_to_json (Sheets wb !! n)
                /\ r = tagged_row n src.
Proof.
  unfold workbook_rows. rewrite elem_of_concat. split.
  - intros (l & (n & -> & Hn)%list_elem_of_fmap & Hr).
    apply list_elem_of_fmap in Hr as (src & -> & Hsrc). by exists n, src.
  - intros (n & src & Hn & Hsrc & ->). exists (sheet_rows wb n).
    split; [by apply list_elem_of_fmap_2|]. by apply list_elem_of_fmap_2.
Qed.

(** C1. When every file decodes, [processMultipleFiles] returns the rows
    of the workbooks flattened in file order, within a file in the order
    of [SheetNames], within a sheet in row order, each row tagged with
    the name of its sheet.  The number of rows is the sum of the sheets'
    row counts, and every output row stems from a row of some sheet: a
    sheet or a file without rows adds nothing. *)
Theorem processMultipleFiles_flattens
        (fs : list File) (wbs : list (Workbook Worksheet)) (w : World) :
  Forall2 (fun f wb => decode f = Ok wb) fs wbs ->
  exists rows w',
    processMultipleFiles fs w = (Ok rows, w')
    /\ rows = concat (workbook_rows <$> wbs)
    /\ length rows = sum_list (workbook_count <$> wbs)
    /\ (forall r, r ∈ rows ->
          exists wb n src,
            wb ∈ wbs /\ n ∈ SheetNames wb
            /\ src ∈ sheet_to_json (Sheets wb !! n)
            /\ r = tagged_row n src).
Proof.
  intros Hdec. eexists _, _. unfold processMultipleFiles.
  rewrite (for_each_file_ok _ _ _ _ Hdec). simpl.
  split; [reflexivity|]. split; [reflexivity|]. split.
  - rewrite length_concat_sum, <- list_fmap_compose. f_equal.
    apply list_fmap_ext. intros _ wb _. apply length_workbook_rows.
  - intros r (l & (wb & -> & Hwb)%list_elem_of_fmap & Hr)%elem_of_concat.
    apply elem_of_workbook_rows in Hr as (n & src & ? & ? & ?).
    by exists wb, n, src.
Qed.

(** C5. [processSheetsInFile] walks [selectedSheetNames] in the order
    given: its result is the concatenation, in that order, of the tagged
    rows of each selected sheet.  A selected name without a sheet in the
    workbook adds no row and raises nothing, and the workbook's own
    [SheetNames] order has no influence on the result. *)
Theorem processSheetsInFile_selection_order
        (file : File) (wb : Workbook Worksheet)
        (selectedSheetNames : list string) (w : World) :
  decode file = Ok wb ->
  processSheetsInFile file selectedSheetNames w
  = (Ok (concat (selected_rows wb <$> selectedSheetNames)),
     log (decode_events file) w)
  /\ (forall n, Sheets wb !! n = None -> selected_rows wb n = [])
  /\ (forall n sel1 sel2 w',
        selectedSheetNames = sel1 ++ n :: sel2 ->
        Sheets wb !! n = None ->
        (processSheetsInFile file (sel1 ++ sel2) w').1
        = Ok (concat (selected_rows wb <$> selectedSheetNames)))
  /\ (forall file' wb' w',
        decode file' = Ok wb' -> Sheets wb' = Sheets wb ->
        (processSheetsInFile file' selectedSheetNames w').1
        = Ok (concat (selected_rows wb <$> selectedSheetNames))).
Proof.
  intros Hdec.
  assert (Hrun : forall f b sel w0, decode f = Ok b ->
            processSheetsInFile f sel w0
            = (Ok (concat (selected_rows b <$> sel)), log (decode_events f) w0)).
  { intros f b sel w0. unfold decode, processSheetsInFile, try_catch, bind,
      await_arrayBuffer, call_XLSX_read, emit, of_outcome, ret, decode_events.
    simpl. destruct (arrayBuffer f) as [buf|e]; [|done]. intros ->.
    by rewrite log_log, fold_selected. }
  split; [by apply Hrun|]. split; [|split].
  - intros n Hn. unfold selected_rows. by rewrite Hn.
  - intros n sel1 sel2 w' -> Hn. rewrite (Hrun _ _ _ _ Hdec). simpl.
    rewrite !fmap_app, fmap_cons, !concat_app. simpl.
    unfold selected_rows at 4. by rewrite Hn.
  - intros file' wb' w' Hdec' Hsheets. rewrite (Hrun _ _ _ _ Hdec'). simpl.
    do 2 f_equal. apply list_fmap_ext. intros _ n _.
    unfold selected_rows. by rewrite Hsheets.
Qed.

(** C6. When a file does not decode while the files before it did,
    [processMultipleFiles] raises one [Error] whose message names that
    file.  No rows are returned: those gathered from the earlier files
    are lost.  The trace shows the decoding of the earlier files and of
    the failing one and nothing of the files after it. *)
Theorem processMultipleFiles_aborts
        (pre post : list File) (f : File) (e : JsExn)
        (wbs : list (Workbook Worksheet)) (w : World) :
  Forall2 (fun f wb => decode f = Ok wb) pre wbs ->
  decode f = Throw e ->
  processMultipleFiles (pre ++ f :: post) w
  = (Throw (JsError ("Không thể xử lý file: " +:+ file_name f)),
     log (concat (decode_events <$> pre) ++ decode_events f
          ++ [EvConsoleError ("Error processing file " +:+ file_name f +:+ ":")])
         w).
Proof.
  intros Hdec Hf. unfold processMultipleFiles.
  by rewrite (for_each_file_fail _ _ _ _ _ _ _ Hdec Hf).
Qed.

End MergeClaims.

(** ** The merge callback *)

Section HandleMerge.
Context `{Codec}.

Lemma processSheetsInFile_ok (file : File) (wb : Workbook Worksheet)
      (sel : list string) (w : World) :
  decode file = Ok wb ->
  processSheetsInFile file sel w
  = (Ok (concat (selected_rows wb <$> sel)), log (decode_events file) w).
Proof.
  unfold decode, processSheetsInFile, try_catch, bind, await_arrayBuffer,
    call_XLSX_read, emit, of_outcome, ret, decode_events.
  simpl. destruct (arrayBuffer file) as [buf|e]; [|done]. intros ->.
  by rewrite log_log, fold_selected.
Qed.

Lemma processSheetsInFile_fail (file : File) (e : JsExn)
      (sel : list string) (w : World) :
  decode file = Throw e ->
  processSheetsInFile file sel w
  = (Throw (decode_error file),
     log (decode_events file
          ++ [EvConsoleError ("Error processing file " +:+ file_name file +:+ ":")])
         w).
Proof.
  unfold decode, processSheetsInFile, rethrow_for, console_error,
    await_arrayBuffer, call_XLSX_read, try_catch, bind, emit, of_outcome,
    ret, decode_events, throw.
  simpl. destruct (arrayBuffer file) as [buf|e'].
  - intros ->. by rewrite !log_log.
  - intros _. by rewrite !log_log.
Qed.

(** The files either all decode or there is a first one that does not. *)
Lemma decode_all_or_first_failure (fs : list File) :
  (exists wbs, Forall2 (fun f wb => decode f = Ok wb) fs wbs)
  \/ (exists pre file post e wbs,
        fs = pre ++ file :: post
        /\ Forall2 (fun f wb => decode f = Ok wb) pre wbs
        /\ decode file = Throw e).
Proof.
  induction fs as [|f fs IH].
  - left. exists []. constructor.
  - destruct (decode f) as [wb|e] eqn:Hf.
    + destruct IH as [[wbs Hall]|(pre & file & post & e & wbs & -> & Hpre & He)].
      * left. exists (wb :: wbs). by constructor.
      * right. exists (f :: pre), file, post, e, (wb :: wbs).
        split; [done|]. split; [by constructor | done].
    + right. exists [], f, fs, e, []. split; [done|]. split; [constructor | done].
Qed.

Lemma log_split (evs1 evs2 : list Event) (w : World) :
  log (evs1 ++ evs2) w = log evs2 (log evs1 w).
Proof. by rewrite log_log. Qed.

(** No file: the callback only sets the error message. *)
Lemma handleMerge_no_files (w : World) :
  files (ui w) = [] ->
  handleMerge w = (Ok tt, set_error (Some "Vui lòng chọn file.") w).
Proof.
  intros Hfiles. unfold handleMerge, bind, get_ui. by rewrite Hfiles.
Qed.

Lemma handleMerge_with_files (w : World) (file0 : File) (rest : list File) :
  files (ui w) = file0 :: rest ->
  handleMerge w
  = try_finally (try_catch (merge_attempt (ui w) file0) report)
                (setIsLoading false) (cleared w).
Proof.
  intros Hfiles. unfold handleMerge, bind at 1, get_ui.
  rewrite Hfiles. reflexivity.
Qed.

Lemma attempt_done (m : M unit) (w1 w2 : World) :
  m w1 = (Ok tt, w2) ->
  try_finally (try_catch m report) (setIsLoading false) w1
  = (Ok tt, set_loading false w2).
Proof. intros Hm. unfold try_finally, try_catch. by rewrite Hm. Qed.

Lemma attempt_thrown (m : M unit) (msg : string) (w1 w2 : World) :
  m w1 = (Throw (JsError msg), w2) ->
  try_finally (try_catch m report) (setIsLoading false) w1
  = (Ok tt,
     set_loading false (log [EvConsoleError msg] (set_error (Some msg) w2))).
Proof. intros Hm. unfold try_finally, try_catch. by rewrite Hm. Qed.

Lemma store_result_run (rows : list ExcelRow) (w : World) :
  store_result rows w
  = (Ok tt,
     if decide (length rows = 0)
     then set_error
            (Some "Không tìm thấy dữ liệu trong các file/sheet đã chọn.") w
     else set_table (Some rows) w).
Proof. unfold store_result. by case_decide. Qed.

Lemma merge_attempt_merges (st : AppState) (file0 : File) (rest : list File)
      (rows : list ExcelRow) (evs : list Event) (w : World) :
  files st = file0 :: rest ->
  merges_to st rows evs ->
  merge_attempt st file0 w
  = (Ok tt,
     if decide (length rows = 0)
     then set_error
            (Some "Không tìm thấy dữ liệu trong các file/sheet đã chọn.")
            (log evs w)
     else set_table (Some rows) (log evs w)).
Proof.
  intros Hfs [wbs Hmode Hdec|f0 rest' wb Hmode Hfs' Hsel Hdec];
    unfold merge_attempt; rewrite Hmode.
  - unfold bind, processMultipleFiles.
    rewrite (for_each_file_ok _ _ _ _ Hdec). apply store_result_run.
  - rewrite Hfs in Hfs'. injection Hfs' as <- <-.
    rewrite decide_False by (by destruct (selected_names _)).
    unfold bind. rewrite (processSheetsInFile_ok _ _ _ _ Hdec).
    apply store_result_run.
Qed.

Lemma merge_attempt_fails (st : AppState) (file0 : File) (rest : list File)
      (file : File) (evs : list Event) (w : World) :
  files st = file0 :: rest ->
  merge_fails st file evs ->
  merge_attempt st file0 w
  = (Throw (decode_error file),
     log [EvConsoleError ("Error processing file " +:+ file_name file +:+ ":")]
         (log evs w)).
Proof.
  intros Hfs [pre post f e wbs Hmode Hfs' Hdec Hf|f0 rest' e Hmode Hfs' Hsel Hf];
    unfold merge_attempt; rewrite Hmode.
  - unfold bind, processMultipleFiles. rewrite Hfs'.
    rewrite (for_each_file_fail _ _ _ _ _ _ _ Hdec Hf).
    by rewrite (assoc_L (++)), log_split.
  - rewrite Hfs in Hfs'. injection Hfs' as <- <-.
    rewrite decide_False by (by destruct (selected_names _)).
    unfold bind. rewrite (processSheetsInFile_fail _ _ _ _ Hf).
    by rewrite log_split.
Qed.

(** The merge runs to its end. *)
Lemma handleMerge_merges (w : World) (rows : list ExcelRow) (evs : list Event) :
  files (ui w) <> [] ->
  merges_to (ui w) rows evs ->
  handleMerge w
  = (Ok tt,
     set_loading false
       (if decide (length rows = 0)
        then set_error
               (Some "Không tìm thấy dữ liệu trong các file/sheet đã chọn.")
               (log evs (cleared w))
        else set_table (Some rows) (log evs (cleared w)))).
Proof.
  intros Hfiles Hm.
  destruct (files (ui w)) as [|file0 rest] eqn:Hfs; [done|].
  rewrite (handleMerge_with_files _ _ _ Hfs).
  apply attempt_done. by eapply merge_attempt_merges.
Qed.

(** A file does not decode. *)
Lemma handleMerge_fails (w : World) (file : File) (evs : list Event) :
  files (ui w) <> [] ->
  merge_fails (ui w) file evs ->
  handleMerge w
  = (Ok tt, set_loading false (failure_report file (log evs (cleared w)))).
Proof.
  intros Hfiles Hm.
  destruct (files (ui w)) as [|file0 rest] eqn:Hfs; [done|].
  rewrite (handleMerge_with_files _ _ _ Hfs).
  unfold failure_report. apply attempt_thrown.
  by eapply merge_attempt_fails.
Qed.

(** Sheets mode with nothing selected. *)
Lemma handleMerge_no_selection (w : World) :
  files (ui w) <> [] ->
  mergeMode (ui w) = ModeSheets ->
  selected_names (singleFileSheets (ui w)) = [] ->
  handleMerge w
  = (Ok tt,
     set_loading false
       (set_loading false
          (set_error (Some "Vui lòng chọn ít nhất một sheet để gộp.")
                     (cleared w)))).
Proof.
  intros Hfiles Hmode Hsel.
  destruct (files (ui w)) as [|file0 rest] eqn:Hfs; [done|].
  rewrite (handleMerge_with_files _ _ _ Hfs).
  apply attempt_done. unfold merge_attempt. by rewrite Hmode, Hsel.
Qed.

(** These are all the ways a merge with files can go. *)
Lemma merge_cases (st : AppState) :
  files st <> [] ->
  (exists rows evs, merges_to st rows evs)
  \/ (exists file evs, merge_fails st file evs)
  \/ (mergeMode st = ModeSheets /\ selected_names (singleFileSheets st) = []).
Proof.
  intros Hfiles. destruct (mergeMode st) eqn:Hmode.
  - destruct (decode_all_or_first_failure (files st))
      as [[wbs Hall]|(pre & file & post & e & wbs & Hfs & Hpre & He)].
    + left. eexists _, _. by eapply merges_files.
    + right. left. eexists _, _. by eapply fails_files.
  - destruct (selected_names (singleFileSheets st)) as [|n sel] eqn:Hsel;
      [by right; right|].
    destruct (files st) as [|file0 rest] eqn:Hfs; [done|].
    destruct (decode file0) as [wb|e] eqn:Hdec.
    + left. eexists _, _. eapply merges_sheets; eauto. by rewrite Hsel.
    + right. left. eexists _, _. eapply fails_sheets; eauto. by rewrite Hsel.
Qed.

End HandleMerge.

Section HandleMergeClaims.
Context `{Codec}.

(** C7. In sheets mode with a file chosen and no sheet selected,
    [handleMerge] sets the empty-selection message and stops: the trace
    of the call holds state setters only, so [processSheetsInFile] is not
    entered and no file is read or parsed; the chosen file and the list
    of sheet names stay as they were. *)
Theorem empty_selection_stops_before_decoding (w : World) :
  files (ui w) <> [] ->
  mergeMode (ui w) = ModeSheets ->
  selected_names (singleFileSheets (ui w)) = [] ->
  exists w',
    handleMerge w = (Ok tt, w')
    /\ error (ui w') = Some "Vui lòng chọn ít nhất một sheet để gộp."
    /\ trace w'
       = trace w ++ [EvSetIsLoading true; EvSetError None; EvSetMergedData None;
                     EvSetError (Some "Vui lòng chọn ít nhất một sheet để gộp.");
                     EvSetIsLoading false; EvSetIsLoading false]
    /\ filter (fun ev => is_decode ev = true) (trace w')
       = filter (fun ev => is_decode ev = true) (trace w)
    /\ files (ui w') = files (ui w)
    /\ singleFileSheets (ui w') = singleFileSheets (ui w)
    /\ isLoading (ui w') = false.
Proof.
  intros Hfiles Hmode Hsel. eexists. split.
  - by apply handleMerge_no_selection.
  - simpl. split; [done|]. split; [by rewrite <- !(assoc_L (++))|].
    split; [|done]. rewrite !filter_app. simpl. by rewrite !app_nil_r.
Qed.

(** C8. With at least one file, [handleMerge] sets the stored table to
    [null] before anything else can happen to a file: the effects of the
    call start with the three setters, whatever follows.  If the merge
    then stops at a file that does not decode, the session is left with
    the error for that file and without a table.  In every case the
    table left behind is either absent or the fresh, non-empty result of
    this merge; the earlier table is never kept. *)
Theorem merge_clears_then_attempts (w : World) :
  files (ui w) <> [] ->
  exists evs w',
    handleMerge w = (Ok tt, w')
    /\ trace w'
       = trace w ++ [EvSetIsLoading true; EvSetError None; EvSetMergedData None]
                 ++ evs
    /\ (forall file evs',
          merge_fails (ui w) file evs' ->
          mergedData (ui w') = None
          /\ error (ui w') = Some ("Không thể xử lý file: " +:+ file_name file))
    /\ (mergedData (ui w') = None
        \/ exists rows evs',
             merges_to (ui w) rows evs' /\ rows <> []
             /\ mergedData (ui w') = Some rows).
Proof.
  intros Hfiles.
  assert (Hrun : exists evs w',
             handleMerge w = (Ok tt, w')
             /\ trace w'
                = trace w ++ [EvSetIsLoading true; EvSetError None;
                              EvSetMergedData None] ++ evs
             /\ (mergedData (ui w') = None
                 \/ exists rows evs',
                      merges_to (ui w) rows evs' /\ rows <> []
                      /\ mergedData (ui w') = Some rows)).
  { destruct (merge_cases (ui w) Hfiles)
      as [(rows & evs & Hm)|[(file & evs & Hm)|[Hmode Hsel]]].
    - pose proof (handleMerge_merges _ _ _ Hfiles Hm) as Hrun.
      destruct (decide (length rows = 0)) as [Hlen|Hlen].
      + exists (evs ++ [EvSetError
                          (Some "Không tìm thấy dữ liệu trong các file/sheet đã chọn.");
                        EvSetIsLoading false]).
        eexists. split; [exact Hrun|]. simpl.
        split; [by rewrite <- !(assoc_L (++)) | by left].
      + exists (evs ++ [EvSetMergedData (Some rows); EvSetIsLoading false]).
        eexists. split; [exact Hrun|]. simpl.
        split; [by rewrite <- !(assoc_L (++))|]. right. exists rows, evs.
        split; [done|]. split; [by destruct rows | done].
    - exists (evs
              ++ [EvConsoleError ("Error processing file " +:+ file_name file +:+ ":");
                  EvSetError (Some ("Không thể xử lý file: " +:+ file_name file));
                  EvConsoleError ("Không thể xử lý file: " +:+ file_name file);
                  EvSetIsLoading false]).
      eexists. split; [by apply handleMerge_fails|]. simpl.
      split; [by rewrite <- !(assoc_L (++)) | by left].
    - exists [EvSetError (Some "Vui lòng chọn ít nhất một sheet để gộp.");
              EvSetIsLoading false; EvSetIsLoading false].
      eexists. split; [by apply handleMerge_no_selection|]. simpl.
      split; [by rewrite <- !(assoc_L (++)) | by left]. }
  destruct Hrun as (evs & w' & Hrun & Htrace & Htable).
  exists evs, w'. split; [done|]. split; [done|]. split; [|done].
  intros file evs' Hfail.
  rewrite (handleMerge_fails _ _ _ Hfiles Hfail) in Hrun.
  injection Hrun as <-. by simpl.
Qed.

(** C9. When the merge runs to its end and yields no row, [handleMerge]
    returns normally, the no-data message is set as the error text and
    no table is stored. *)
Theorem empty_result_is_reported (w : World) (evs : list Event) :
  files (ui w) <> [] ->
  merges_to (ui w) [] evs ->
  exists w',
    handleMerge w = (Ok tt, w')
    /\ error (ui w')
       = Some "Không tìm thấy dữ liệu trong các file/sheet đã chọn."
    /\ mergedData (ui w') = None
    /\ trace w'
       = trace w ++ [EvSetIsLoading true; EvSetError None; EvSetMergedData None]
                 ++ evs
                 ++ [EvSetError
                       (Some "Không tìm thấy dữ liệu trong các file/sheet đã chọn.");
                     EvSetIsLoading false].
Proof.
  intros Hfiles Hm. eexists. split; [by apply handleMerge_merges|]. simpl.
  split; [done|]. split; [done|]. by rewrite <- !(assoc_L (++)).
Qed.

(** C10. With an empty file list [handleMerge] sets the no-file message
    and returns: this setter is its only effect, so the stored table is
    the one of before and nothing is read. *)
Theorem no_files_returns_early (w : World) :
  files (ui w) = [] ->
  exists w',
    handleMerge w = (Ok tt, w')
    /\ error (ui w') = Some "Vui lòng chọn file."
    /\ mergedData (ui w') = mergedData (ui w)
    /\ isLoading (ui w') = isLoading (ui w)
    /\ trace w' = trace w ++ [EvSetError (Some "Vui lòng chọn file.")].
Proof.
  intros Hfiles. eexists. split; [by apply handleMerge_no_files|]. by simpl.
Qed.

End HandleMergeClaims.

(** ** The Provenance Column of the merged rows *)

Section Provenance.
Context `{Codec}.

Lemma elem_of_selected_rows (r : ExcelRow) (wb : Workbook Worksheet)
      (sel : list string) :
  r ∈ concat (selected_rows wb <$> sel) ->
  exists n src, n ∈ sel /\ src ∈ sheet_to_json (Sheets wb !! n)
                /\ r = tagged_row n src.
Proof.
  intros (l & (n & -> & Hn)%list_elem_of_fmap & Hr)%elem_of_concat.
  unfold selected_rows in Hr. destruct (Sheets wb !! n) as [ws|] eqn:Hws.
  - apply list_elem_of_fmap in Hr as (src & -> & Hsrc).
    exists n, src. by rewrite Hws.
  - by apply elem_of_nil in Hr.
Qed.

Lemma get_spread_absent (k : string) (src dst : ExcelRow) :
  Obj.get k src = None ->
  Obj.get k (Obj.spread src dst) = Obj.get k dst.
Proof.
  unfold Obj.spread. revert dst.
  induction src as [|[k1 v1] src IH]; intros dst Hk; simpl in *; [done|].
  destruct (decide (k1 = k)) as [->|Hne]; [done|].
  rewrite IH by done. by apply ObjFacts.get_set_ne.
Qed.

(** C3. Both merge functions build every output row as the object
    literal that first holds the Provenance Column with the sheet's name
    and then receives the properties of the source row.  Hence a source
    row without a column of that name carries the sheet's name there,
    and a source row that has a column of that very name keeps its own
    value there: the tag is overwritten. *)
Theorem own_column_overwrites_tag
        (fs : list File) (wbs : list (Workbook Worksheet))
        (file : File) (wb : Workbook Worksheet) (sel : list string)
        (w : World) :
  Forall2 (fun f b => decode f = Ok b) fs wbs ->
  decode file = Ok wb ->
  exists rows1 w1 rows2 w2,
    processMultipleFiles fs w = (Ok rows1, w1)
    /\ processSheetsInFile file sel w = (Ok rows2, w2)
    /\ rows1
       = concat ((fun b =>
                    concat ((fun n =>
                               (fun row =>
                                  Obj.spread row
                                    [(SOURCE_COLUMN_NAME, VString n)])
                               <$> sheet_to_json (Sheets b !! n))
                            <$> SheetNames b))
                 <$> wbs)
    /\ rows2
       = concat ((fun n =>
                    match Sheets wb !! n with
                    | Some ws =>
                        (fun row =>
                           Obj.spread row [(SOURCE_COLUMN_NAME, VString n)])
                        <$> sheet_to_json (Some ws)
                    | None => []
                    end)
                 <$> sel)
    /\ (forall n row v,
          Obj.wf row ->
          Obj.get SOURCE_COLUMN_NAME row = Some v ->
          Obj.get SOURCE_COLUMN_NAME
                  (Obj.spread row [(SOURCE_COLUMN_NAME, VString n)])
          = Some v)
    /\ (forall n row,
          Obj.get SOURCE_COLUMN_NAME row = None ->
          Obj.get SOURCE_COLUMN_NAME
                  (Obj.spread row [(SOURCE_COLUMN_NAME, VString n)])
          = Some (VString n)).
Proof.
  intros Hdec Hfile. eexists _, _, _, _.
  split; [by apply for_each_file_ok|].
  split; [by apply processSheetsInFile_ok|].
  split; [reflexivity|]. split; [reflexivity|]. split.
  - intros n row v Hwf Hv. rewrite ObjFacts.get_spread by done. by rewrite Hv.
  - intros n row Hnone. rewrite get_spread_absent by done. reflexivity.
Qed.

Lemma fmap_concat {A B} (f : A -> B) (ls : list (list A)) :
  f <$> concat ls = concat ((fun l : list A => f <$> l) <$> ls).
Proof.
  induction ls as [|l ls IH]; simpl; [done|]. by rewrite fmap_app, IH.
Qed.

Lemma workbook_rows_sources (wb : Workbook Worksheet) :
  workbook_rows wb = (fun p => tagged_row p.1 p.2) <$> workbook_sources wb.
Proof.
  unfold workbook_rows, workbook_sources.
  rewrite fmap_concat, <- list_fmap_compose. f_equal.
  apply list_fmap_ext. intros _ n _. unfold sheet_rows. simpl.
  by rewrite <- list_fmap_compose.
Qed.

Lemma selected_rows_sources (wb : Workbook Worksheet) (sel : list string) :
  concat (selected_rows wb <$> sel)
  = (fun p => tagged_row p.1 p.2) <$> selected_sources wb sel.
Proof.
  unfold selected_sources.
  rewrite fmap_concat, <- list_fmap_compose. f_equal.
  apply list_fmap_ext. intros _ n _. unfold selected_rows. simpl.
  destruct (Sheets wb !! n); [|done]. by rewrite <- list_fmap_compose.
Qed.

(** C4, as the code has it.  In both modes the output rows match the
    source rows one to one, and every output row has the Provenance
    Column.  Its value is the source row's own value for a column of
    that name when the source row has one, and the name of the sheet
    otherwise; so it is other than [null] as soon as no source row has a
    [null] cell in a column of that name. *)
Theorem provenance_column_value
        (fs : list File) (wbs : list (Workbook Worksheet))
        (file : File) (wb : Workbook Worksheet) (sel : list string)
        (w : World) :
  Forall2 (fun f b => decode f = Ok b) fs wbs ->
  decode file = Ok wb ->
  Forall (fun p => Obj.wf p.2)
         (concat (workbook_sources <$> wbs) ++ selected_sources wb sel) ->
  exists rows1 w1 rows2 w2,
    processMultipleFiles fs w = (Ok rows1, w1)
    /\ processSheetsInFile file sel w = (Ok rows2, w2)
    /\ Forall2 (fun p out =>
                  Obj.get SOURCE_COLUMN_NAME out
                  = Some (match Obj.get SOURCE_COLUMN_NAME p.2 with
                          | Some v => v
                          | None => VString p.1
                          end))
               (concat (workbook_sources <$> wbs) ++ selected_sources wb sel)
               (rows1 ++ rows2)
    /\ (Forall (fun p => Obj.get SOURCE_COLUMN_NAME p.2 <> Some VNull)
               (concat (workbook_sources <$> wbs) ++ selected_sources wb sel) ->
        provenance_non_null (rows1 ++ rows2)).
Proof.
  intros Hdec Hfile Hwf.
  set (sources := concat (workbook_sources <$> wbs) ++ selected_sources wb sel)
    in *.
  assert (Hrows : concat (workbook_rows <$> wbs)
                    ++ concat (selected_rows wb <$> sel)
                  = (fun p => tagged_row p.1 p.2) <$> sources).
  { unfold sources. rewrite fmap_app, fmap_concat, <- list_fmap_compose.
    rewrite selected_rows_sources. f_equal. f_equal.
    apply list_fmap_ext. intros _ b _. apply workbook_rows_sources. }
  assert (Hval : Forall (fun p =>
              Obj.get SOURCE_COLUMN_NAME (tagged_row p.1 p.2)
              = Some (match Obj.get SOURCE_COLUMN_NAME p.2 with
                      | Some v => v
                      | None => VString p.1
                      end)) sources).
  { eapply Forall_impl; [exact Hwf|]. intros [n src] Hsrc. simpl in *.
    rewrite ObjFacts.get_tagged_row by done.
    by destruct (Obj.get SOURCE_COLUMN_NAME src). }
  eexists _, _, _, _.
  split; [by apply for_each_file_ok|].
  split; [by apply processSheetsInFile_ok|]. simpl. rewrite Hrows. split.
  - apply Forall2_fmap_r. by apply Forall_Forall2_diag.
  - intros Hnn out (p & -> & Hp)%list_elem_of_fmap.
    eapply Forall_forall in Hval; [|exact Hp].
    eapply Forall_forall in Hnn; [|exact Hp].
    rewrite Hval. eexists. split; [reflexivity|].
    destruct (Obj.get SOURCE_COLUMN_NAME p.2) as [v|]; [|done].
    intros ->. done.
Qed.

End Provenance.

(** ** The theorems at concrete sessions *)

Lemma processMultipleFiles_flattens_witness :
  Forall2 (fun f wb => decode (H := Demo.codec) f = Ok wb)
          [Demo.F1; Demo.F2] [Demo.wb1; Demo.wb2]
  /\ exists rows w',
      processMultipleFiles (H := Demo.codec) [Demo.F1; Demo.F2]
        (Demo.session ModeFiles [Demo.F1; Demo.F2] [] None) = (Ok rows, w')
      /\ length rows = 3.
Proof.
  assert (Hdec : Forall2 (fun f wb => decode (H := Demo.codec) f = Ok wb)
                         [Demo.F1; Demo.F2] [Demo.wb1; Demo.wb2])
    by (repeat constructor).
  split; [exact Hdec|].
  destruct (processMultipleFiles_flattens (H := Demo.codec) _ _
              (Demo.session ModeFiles [Demo.F1; Demo.F2] [] None) Hdec)
    as (rows & w' & Hrun & _ & Hlen & _).
  exists rows, w'. split; [exact Hrun|]. rewrite Hlen. reflexivity.
Defined.

Lemma processSheetsInFile_selection_order_witness :
  decode (H := Demo.codec) Demo.F3 = Ok Demo.wb3
  /\ (processSheetsInFile (H := Demo.codec) Demo.F3 ["Mar"; "Apr"; "Jan"]
        (Demo.session ModeSheets [Demo.F3] [] None)).1
     = Ok [ [(SOURCE_COLUMN_NAME, VString "Mar"); ("A", VNumber 3)];
            [(SOURCE_COLUMN_NAME, VString "Jan"); ("A", VNumber 1)] ].
Proof.
  split; [reflexivity|].
  destruct (processSheetsInFile_selection_order (H := Demo.codec)
              Demo.F3 Demo.wb3 ["Mar"; "Apr"; "Jan"]
              (Demo.session ModeSheets [Demo.F3] [] None) eq_refl)
    as (Hrun & _).
  rewrite Hrun. reflexivity.
Defined.

Lemma processMultipleFiles_aborts_witness :
  Forall2 (fun f wb => decode (H := Demo.codec) f = Ok wb) [Demo.F1] [Demo.wb1]
  /\ decode (H := Demo.codec) Demo.corrupt = Throw JsOther
  /\ (processMultipleFiles (H := Demo.codec) [Demo.F1; Demo.corrupt; Demo.F2]
        (Demo.session ModeFiles [Demo.F1; Demo.corrupt; Demo.F2] [] None)).1
     = Throw (JsError "Không thể xử lý file: corrupt.xlsx").
Proof.
  assert (Hdec : Forall2 (fun f wb => decode (H := Demo.codec) f = Ok wb)
                         [Demo.F1] [Demo.wb1]) by (repeat constructor).
  split; [exact Hdec|]. split; [reflexivity|].
  change [Demo.F1; Demo.corrupt; Demo.F2]
    with ([Demo.F1] ++ Demo.corrupt :: [Demo.F2]) at 1.
  rewrite (processMultipleFiles_aborts (H := Demo.codec)
             [Demo.F1] [Demo.F2] Demo.corrupt JsOther [Demo.wb1] _ Hdec eq_refl).
  reflexivity.
Defined.

Lemma own_column_overwrites_tag_witness :
  Forall2 (fun f b => decode (H := Demo.codec) f = Ok b) [Demo.clash] [Demo.wb_clash]
  /\ decode (H := Demo.codec) Demo.clash = Ok Demo.wb_clash
  /\ Obj.get SOURCE_COLUMN_NAME
       (Obj.spread [(SOURCE_COLUMN_NAME, VNull); ("A", VNumber 1)]
                   [(SOURCE_COLUMN_NAME, VString "Jan")])
     = Some VNull.
Proof.
  assert (Hdec : Forall2 (fun f b => decode (H := Demo.codec) f = Ok b)
                         [Demo.clash] [Demo.wb_clash]) by (repeat constructor).
  split; [exact Hdec|]. split; [reflexivity|].
  destruct (own_column_overwrites_tag (H := Demo.codec)
              [Demo.clash] [Demo.wb_clash] Demo.clash Demo.wb_clash ["Jan"]
              (Demo.session ModeFiles [Demo.clash] [] None) Hdec eq_refl)
    as (rows1 & w1 & rows2 & w2 & _ & _ & _ & _ & Hget & _).
  apply Hget; [|reflexivity].
  unfold Obj.wf. simpl. apply NoDup_cons. split.
  - intros Hin%list_elem_of_singleton. discriminate Hin.
  - apply NoDup_singleton.
Defined.

Lemma provenance_column_value_witness :
  exists rows1 w1 rows2 w2,
    processMultipleFiles (H := Demo.codec) [Demo.F1; Demo.F2]
      (Demo.session ModeFiles [Demo.F1; Demo.F2] [] None) = (Ok rows1, w1)
    /\ processSheetsInFile (H := Demo.codec) Demo.F3 ["Mar"; "Jan"]
         (Demo.session ModeFiles [Demo.F1; Demo.F2] [] None) = (Ok rows2, w2)
    /\ provenance_non_null (rows1 ++ rows2).
Proof.
  assert (Hdec : Forall2 (fun f wb => decode (H := Demo.codec) f = Ok wb)
                         [Demo.F1; Demo.F2] [Demo.wb1; Demo.wb2])
    by (repeat constructor).
  destruct (provenance_column_value (H := Demo.codec)
              [Demo.F1; Demo.F2] [Demo.wb1; Demo.wb2] Demo.F3 Demo.wb3
              ["Mar"; "Jan"]
              (Demo.session ModeFiles [Demo.F1; Demo.F2] [] None) Hdec eq_refl)
    as (rows1 & w1 & rows2 & w2 & Hrun1 & Hrun2 & _ & Hnn).
  { apply (bool_decide_unpack _). vm_compute. reflexivity. }
  exists rows1, w1, rows2, w2. split; [exact Hrun1|]. split; [exact Hrun2|].
  apply Hnn. apply (bool_decide_unpack _). vm_compute. reflexivity.
Defined.

Lemma empty_selection_stops_before_decoding_witness :
  files (ui Demo.nothing_selected) <> []
  /\ mergeMode (ui Demo.nothing_selected) = ModeSheets
  /\ selected_names (singleFileSheets (ui Demo.nothing_selected)) = []
  /\ exists w',
      handleMerge (H := Demo.codec) Demo.nothing_selected = (Ok tt, w')
      /\ error (ui w') = Some "Vui lòng chọn ít nhất một sheet để gộp."
      /\ filter (fun ev => is_decode ev = true) (trace w') = [].
Proof.
  set (w := Demo.nothing_selected).
  assert (Hfiles : files (ui w) <> []) by discriminate.
  split; [exact Hfiles|]. split; [reflexivity|]. split; [reflexivity|].
  destruct (empty_selection_stops_before_decoding (H := Demo.codec) w
              Hfiles eq_refl eq_refl)
    as (w' & Hrun & Herr & _ & Hdecode & _).
  exists w'. split; [exact Hrun|]. split; [exact Herr|]. exact Hdecode.
Defined.

Lemma merge_clears_then_attempts_witness :
  files (ui Demo.one_corrupt) <> []
  /\ exists w',
      handleMerge (H := Demo.codec) Demo.one_corrupt = (Ok tt, w')
      /\ mergedData (ui w') = None
      /\ error (ui w') = Some "Không thể xử lý file: corrupt.xlsx".
Proof.
  set (w := Demo.one_corrupt).
  assert (Hfiles : files (ui w) <> []) by discriminate.
  split; [exact Hfiles|].
  destruct (merge_clears_then_attempts (H := Demo.codec) w Hfiles)
    as (evs & w' & Hrun & _ & Hfail & _).
  exists w'. split; [exact Hrun|].
  apply (Hfail Demo.corrupt
               (concat (decode_events (H := Demo.codec) <$> [Demo.F1])
                ++ decode_events (H := Demo.codec) Demo.corrupt)).
  apply (fails_files (H := Demo.codec) (ui w)
                     [Demo.F1] [Demo.F2] Demo.corrupt JsOther [Demo.wb1]).
  - reflexivity.
  - reflexivity.
  - repeat constructor.
  - reflexivity.
Defined.

Lemma empty_result_is_reported_witness :
  files (ui Demo.only_blank) <> []
  /\ merges_to (H := Demo.codec) (ui Demo.only_blank) []
                (decode_events (H := Demo.codec) Demo.blank)
  /\ exists w',
      handleMerge (H := Demo.codec) Demo.only_blank = (Ok tt, w')
      /\ error (ui w')
         = Some "Không tìm thấy dữ liệu trong các file/sheet đã chọn."
      /\ mergedData (ui w') = None.
Proof.
  set (w := Demo.only_blank).
  assert (Hfiles : files (ui w) <> []) by discriminate.
  assert (Hm : merges_to (H := Demo.codec) (ui w) []
                         (decode_events (H := Demo.codec) Demo.blank)).
  { apply (merges_files (H := Demo.codec) (ui w) [Demo.wb_empty]).
    - reflexivity.
    - repeat constructor. }
  split; [exact Hfiles|]. split; [exact Hm|].
  destruct (empty_result_is_reported (H := Demo.codec) w _ Hfiles Hm)
    as (w' & Hrun & Herr & Htable & _).
  exists w'. split; [exact Hrun|]. split; [exact Herr | exact Htable].
Defined.

Lemma no_files_returns_early_witness :
  files (ui Demo.no_files) = []
  /\ exists w',
      handleMerge (H := Demo.codec) Demo.no_files = (Ok tt, w')
      /\ error (ui w') = Some "Vui lòng chọn file."
      /\ mergedData (ui w') = Some Demo.earlier
      /\ trace w' = [EvSetError (Some "Vui lòng chọn file.")].
Proof.
  set (w := Demo.no_files). split; [reflexivity|].
  destruct (no_files_returns_early (H := Demo.codec) w eq_refl)
    as (w' & Hrun & Herr & Htable & _ & Htrace).
  exists w'. split; [exact Hrun|]. split; [exact Herr|].
  split; [exact Htable | exact Htrace].
Defined.

(** C4 as the specification states it does not hold: a sheet with a column
    called like the Provenance Column and an empty cell in it yields a
    merged row whose Provenance Column is [null]. *)
Lemma provenance_can_be_null :
  exists w',
    handleMerge (H := Demo.codec)
      (Demo.session ModeFiles [Demo.clash] [] None) = (Ok tt, w')
    /\ mergedData (ui w')
       = Some [[(SOURCE_COLUMN_NAME, VNull); ("A", VNumber 1)]]
    /\ ~ provenance_non_null [[(SOURCE_COLUMN_NAME, VNull); ("A", VNumber 1)]].
Proof.
  eexists. split; [vm_compute; reflexivity|]. split; [reflexivity|].
  intros Hnn.
  destruct (Hnn [(SOURCE_COLUMN_NAME, VNull); ("A", VNumber 1)])
    as (v & Hget & Hv); [by left|].
  vm_compute in Hget. by injection Hget as <-.
Qed.

(** ** Worked examples *)

Example tagged_row_index_key :
  tagged_row "Jan" [("2020", VNumber 1); ("A", VNumber 2)]
  = [("2020", VNumber 1); (SOURCE_COLUMN_NAME, VString "Jan"); ("A", VNumber 2)].
Proof. reflexivity. Qed.

(** Scenario A of the specification. *)
Example scenario_A_rows :
  (processMultipleFiles (H := Demo.codec) [Demo.F1; Demo.F2]
     (Demo.session ModeFiles [Demo.F1; Demo.F2] [] None)).1
  = Ok [ [(SOURCE_COLUMN_NAME, VString "Jan"); ("A", VNumber 1); ("B", VNumber 2)];
         [(SOURCE_COLUMN_NAME, VString "Feb"); ("A", VNumber 3)];
         [(SOURCE_COLUMN_NAME, VString "Mar"); ("B", VNumber 5); ("C", VNumber 6)] ].
Proof. vm_compute. reflexivity. Qed.

Example scenario_A_headers :
  getHeadersFromData
    [ tagged_row "Jan" [("A", VNumber 1); ("B", VNumber 2)];
      tagged_row "Feb" [("A", VNumber 3)];
      tagged_row "Mar" [("B", VNumber 5); ("C", VNumber 6)] ]
  = [SOURCE_COLUMN_NAME; "A"; "B"; "C"].
Proof. reflexivity. Qed.

(** Scenario B: the selection order decides, not the order in the file. *)
Example scenario_B_rows :
  (processSheetsInFile (H := Demo.codec) Demo.F3 ["Mar"; "Jan"]
     (Demo.session ModeSheets [Demo.F3] [] None)).1
  = Ok [ [(SOURCE_COLUMN_NAME, VString "Mar"); ("A", VNumber 3)];
         [(SOURCE_COLUMN_NAME, VString "Jan"); ("A", VNumber 1)] ].
Proof. vm_compute. reflexivity. Qed.

(** A merge that succeeds stores the fresh table and no error. *)
Example successful_merge_stores_table :
  let w' := (handleMerge (H := Demo.codec)
               (Demo.session ModeFiles [Demo.F2] [] (Some Demo.earlier))).2 in
  mergedData (ui w')
  = Some [[(SOURCE_COLUMN_NAME, VString "Mar"); ("B", VNumber 5); ("C", VNumber 6)]]
  /\ error (ui w') = None /\ isLoading (ui w') = false.
Proof. vm_compute. repeat split. Qed.

(** The headers keep the first-seen order when an array-index key makes
    the Provenance Column the second key of a row. *)
Example headers_with_index_key :
  getHeadersFromData [tagged_row "Jan" [("A", VNumber 2); ("2020", VNumber 1)]]
  = [SOURCE_COLUMN_NAME; "2020"; "A"].
Proof. reflexivity. Qed.

(** * Further properties *)

(** ** The keys of a tagged row *)

Module ObjKeys.
Import Obj.

Lemma keys_replace (k : string) (v : CellValue) (o : ExcelRow) :
  keys (replace k v o) = keys o.
Proof.
  unfold keys. induction o as [|[k' v'] o IH]; simpl; [done|].
  destruct (decide (k' = k)) as [->|Hne]; simpl; [done | by f_equal].
Qed.

Lemma keys_insert_index (n : N) (k : string) (v : CellValue) (o : ExcelRow) :
  keys (insert_index n k v o) ≡ₚ k :: keys o.
Proof.
  unfold keys. induction o as [|[k' v'] o IH]; simpl; [done|].
  destruct (array_index k') as [n'|]; [destruct (n' <? n)%N|]; simpl; [|done..].
  rewrite IH. apply Permutation_swap.
Qed.

Lemma keys_set (k : string) (v : CellValue) (o : ExcelRow) :
  keys (set k v o) ≡ₚ if has k o then keys o else k :: keys o.
Proof.
  unfold set. destruct (has k o).
  - by rewrite keys_replace.
  - destruct (array_index k).
    + apply keys_insert_index.
    + unfold keys. rewrite fmap_app. simpl. by rewrite Permutation_app_comm.
Qed.

Lemma elem_of_keys_set (k k' : string) (v : CellValue) (o : ExcelRow) :
  k' ∈ keys (set k v o) <-> k' = k \/ k' ∈ keys o.
Proof.
  rewrite keys_set. destruct (has k o) eqn:Hk.
  - split; [by right|]. intros [->|?]; [|done].
    apply dec_stable. intros Hn%ObjFacts.get_None_iff.
    apply ObjFacts.has_false in Hn. congruence.
  - by rewrite elem_of_cons.
Qed.

Lemma wf_set (k : string) (v : CellValue) (o : ExcelRow) :
  wf o -> wf (set k v o).
Proof.
  unfold wf. intros Hwf. rewrite keys_set. destruct (has k o) eqn:Hk; [done|].
  apply NoDup_cons. split; [|done].
  by apply ObjFacts.get_None_iff, ObjFacts.has_false.
Qed.

Lemma wf_spread (src dst : ExcelRow) : wf dst -> wf (spread src dst).
Proof.
  unfold spread. revert dst. induction src as [|[k v] src IH]; intros dst Hwf;
    simpl; [done|]. apply IH. by apply wf_set.
Qed.

Lemma elem_of_keys_spread (k : string) (src dst : ExcelRow) :
  k ∈ keys (spread src dst) <-> k ∈ keys src \/ k ∈ keys dst.
Proof.
  unfold spread. revert dst. induction src as [|[k1 v1] src IH]; intros dst; simpl.
  - split; [by right | intros [[]%elem_of_nil|?]; done].
  - rewrite IH, elem_of_keys_set. unfold keys. simpl. rewrite elem_of_cons.
    tauto.
Qed.

Lemma set_head (k : string) (v v0 : CellValue) (d : ExcelRow) :
  set k v ((k, v0) :: d) = (k, v) :: d.
Proof.
  unfold set, has. simpl. rewrite decide_True by done. simpl.
  by rewrite decide_True.
Qed.

Lemma set_new_name (k : string) (v : CellValue) (o : ExcelRow) :
  get k o = None -> array_index k = None -> set k v o = o ++ [(k, v)].
Proof. intros Hk Hidx. unfold set, has. by rewrite Hk, Hidx. Qed.

Lemma spread_cons (k : string) (v : CellValue) (src dst : ExcelRow) :
  spread ((k, v) :: src) dst = spread src (set k v dst).
Proof. reflexivity. Qed.

(** When neither the new key nor any key at hand is an array index, a new
    property goes to the end. *)
Lemma spread_after_tag (src d : ExcelRow) (k0 : string) (v0 : CellValue) :
  wf src ->
  Forall (fun k => array_index k = None) (keys src) ->
  k0 ∉ keys d ->
  (forall k, k ∈ keys src -> k ∉ keys d) ->
  spread src ((k0, v0) :: d)
  = (k0, default v0 (get k0 src)) :: d ++ filter (fun kv => kv.1 <> k0) src.
Proof.
  unfold wf, keys. revert d v0.
  induction src as [|[k v] src IH]; intros d v0 Hwf Hidx Hk0 Hdisj.
  - unfold spread. simpl. by rewrite app_nil_r.
  - rewrite fmap_cons in Hwf, Hidx, Hdisj. simpl in Hwf, Hidx, Hdisj.
    apply NoDup_cons in Hwf as [Hk Hwf]. apply Forall_cons in Hidx as [Hkidx Hidx].
    rewrite spread_cons.
    destruct (decide (k = k0)) as [->|Hne].
    + rewrite set_head, IH; [|done..|].
      * apply ObjFacts.get_None_iff in Hk. simpl. rewrite decide_True by done.
        rewrite Hk. simpl. by rewrite filter_cons_False by (simpl; tauto).
      * intros k' Hk'. apply Hdisj. by right.
    + assert (Hkd : get k ((k0, v0) :: d) = None).
      { simpl. rewrite decide_False by done. apply ObjFacts.get_None_iff.
        apply Hdisj. by left. }
      rewrite set_new_name by done.
      change (((k0, v0) :: d) ++ [(k, v)]) with ((k0, v0) :: (d ++ [(k, v)])).
      rewrite IH; [|done..| |].
      * simpl. rewrite decide_False by done.
        rewrite filter_cons_True by done. by rewrite <- (assoc_L (++)).
      * rewrite fmap_app, elem_of_app. simpl. rewrite list_elem_of_singleton.
        intros [?|?]; [done | congruence].
      * intros k' Hk'. rewrite fmap_app, elem_of_app. simpl.
        rewrite list_elem_of_singleton. intros [Hd| ->]; [|done].
        by apply (Hdisj k'); [right|].
Qed.

Lemma index_first_set (k : string) (v : CellValue) (o : ExcelRow) :
  index_first o -> index_first (set k v o).
Proof.
  intros (k1 & v1 & rest & -> & Hk1). unfold set.
  destruct (has k ((k1, v1) :: rest)).
  - simpl. destruct (decide (k1 = k)) as [->|Hne]; by eexists _, _, _.
  - destruct (array_index k) as [n|] eqn:Hk.
    + simpl. destruct Hk1 as [n1 Hn1]. rewrite Hn1.
      destruct (n1 <? n)%N; eexists _, _, _; (split; [done|]);
        [by rewrite Hn1 | by rewrite Hk].
    + simpl. by eexists _, _, _.
Qed.

Lemma index_first_spread (src dst : ExcelRow) :
  index_first dst -> index_first (spread src dst).
Proof.
  unfold spread. revert dst. induction src as [|[k v] src IH]; intros dst Hd;
    simpl; [done|]. by apply IH, index_first_set.
Qed.

Lemma index_first_spread_new (src dst : ExcelRow) :
  dst <> [] ->
  Forall (fun k => array_index k = None) (keys dst) ->
  Exists (fun k => is_Some (array_index k)) (keys src) ->
  index_first (spread src dst).
Proof.
  unfold spread. revert dst.
  induction src as [|[k v] src IH]; intros dst Hne Hdst Hex; simpl in *.
  - by apply Exists_nil in Hex.
  - destruct (array_index k) as [n|] eqn:Hk.
    + apply (index_first_spread src). unfold set.
      assert (Hhas : has k dst = false).
      { apply ObjFacts.has_false, ObjFacts.get_None_iff. intros Hin.
        eapply Forall_forall in Hdst; [|exact Hin]. congruence. }
      rewrite Hhas, Hk. destruct dst as [|[k1 v1] dst]; [done|]. simpl.
      apply Forall_cons in Hdst as [Hk1 _]. simpl in Hk1. rewrite Hk1.
      eexists _, _, _. split; [done|]. by rewrite Hk.
    + apply Exists_cons in Hex as [[? Hex]|Hex]; [simpl in Hex; congruence|].
      apply IH; [| |done].
      * intros Hnil. assert (Hin : k ∈ keys (set k v dst))
          by (apply elem_of_keys_set; by left).
        rewrite Hnil in Hin. by apply elem_of_nil in Hin.
      * apply Forall_forall. intros k' [->|Hk']%elem_of_keys_set; [done|].
        by eapply Forall_forall in Hdst.
Qed.

End ObjKeys.

(** X1. A tagged row is a well-formed object whatever the source row, and
    its keys are the Provenance Column and the keys of the source row. *)
Theorem tagged_row_wf_keys (sheetName : string) (row : ExcelRow) :
  Obj.wf (tagged_row sheetName row)
  /\ (forall k, k ∈ Obj.keys (tagged_row sheetName row)
                <-> k = SOURCE_COLUMN_NAME \/ k ∈ Obj.keys row).
Proof.
  unfold tagged_row. split.
  - apply ObjKeys.wf_spread, ObjKeys.wf_set. apply NoDup_nil_2.
  - intros k. rewrite ObjKeys.elem_of_keys_spread, ObjKeys.elem_of_keys_set.
    unfold Obj.keys at 2. simpl. rewrite elem_of_nil. tauto.
Qed.

(** X2. Tagging never changes a column of the source row other than one
    called like the Provenance Column: every other key reads as before. *)
Theorem tagged_row_keeps_values (sheetName : string) (row : ExcelRow) (k : string) :
  Obj.wf row ->
  k <> SOURCE_COLUMN_NAME ->
  Obj.get k (tagged_row sheetName row) = Obj.get k row.
Proof.
  intros Hwf Hk. unfold tagged_row. rewrite ObjFacts.get_spread by done.
  rewrite ObjFacts.get_set_ne by done. by destruct (Obj.get k row).
Qed.

(** X3. When no key of the source row is an array index, the Provenance
    Column is the first key of the tagged row and the other columns follow
    in the order of the source row; the first value is the source row's
    own one when it has that column, the sheet name otherwise. *)
Theorem tagged_row_provenance_first (sheetName : string) (row : ExcelRow) :
  Obj.wf row ->
  Forall (fun k => Obj.array_index k = None) (Obj.keys row) ->
  tagged_row sheetName row
  = (SOURCE_COLUMN_NAME,
     default (VString sheetName) (Obj.get SOURCE_COLUMN_NAME row))
    :: filter (fun kv => kv.1 <> SOURCE_COLUMN_NAME) row.
Proof.
  intros Hwf Hidx. unfold tagged_row.
  change (Obj.set SOURCE_COLUMN_NAME (VString sheetName) [])
    with [(SOURCE_COLUMN_NAME, VString sheetName)].
  rewrite ObjKeys.spread_after_tag; [done..| |].
  - apply not_elem_of_nil.
  - intros k _. apply not_elem_of_nil.
Qed.

(** X4. When some key of the source row is an array index, the first key
    of the tagged row is an array index: the Provenance Column is not the
    first column of that row. *)
Theorem tagged_row_index_key_first (sheetName : string) (row : ExcelRow) :
  Exists (fun k => is_Some (Obj.array_index k)) (Obj.keys row) ->
  exists k v rest,
    tagged_row sheetName row = (k, v) :: rest
    /\ is_Some (Obj.array_index k) /\ k <> SOURCE_COLUMN_NAME.
Proof.
  intros Hex.
  destruct (ObjKeys.index_first_spread_new row
              [(SOURCE_COLUMN_NAME, VString sheetName)])
    as (k & v & rest & Heq & Hk); [done | | done |].
  - by repeat constructor.
  - exists k, v, rest. split; [exact Heq|]. split; [done|].
    intros ->. by destruct Hk.
Qed.

Lemma tagged_row_keeps_values_witness :
  Obj.wf [(SOURCE_COLUMN_NAME, VNull); ("A", VNumber 1)]
  /\ "A" <> SOURCE_COLUMN_NAME
  /\ Obj.get "A" (tagged_row "Jan" [(SOURCE_COLUMN_NAME, VNull); ("A", VNumber 1)])
     = Some (VNumber 1).
Proof.
  assert (Hwf : Obj.wf [(SOURCE_COLUMN_NAME, VNull); ("A", VNumber 1)])
    by (apply (bool_decide_unpack _); vm_compute; reflexivity).
  assert (Hne : "A" <> SOURCE_COLUMN_NAME) by discriminate.
  split; [exact Hwf|]. split; [exact Hne|].
  rewrite (tagged_row_keeps_values "Jan" _ "A" Hwf Hne). reflexivity.
Defined.

Lemma tagged_row_provenance_first_witness :
  Obj.wf [("B", VNumber 5); (SOURCE_COLUMN_NAME, VString "own"); ("C", VNumber 6)]
  /\ Forall (fun k => Obj.array_index k = None)
            (Obj.keys [("B", VNumber 5); (SOURCE_COLUMN_NAME, VString "own");
                       ("C", VNumber 6)])
  /\ tagged_row "Mar"
       [("B", VNumber 5); (SOURCE_COLUMN_NAME, VString "own"); ("C", VNumber 6)]
     = [(SOURCE_COLUMN_NAME, VString "own"); ("B", VNumber 5); ("C", VNumber 6)].
Proof.
  assert (Hwf : Obj.wf [("B", VNumber 5); (SOURCE_COLUMN_NAME, VString "own");
                        ("C", VNumber 6)])
    by (apply (bool_decide_unpack _); vm_compute; reflexivity).
  assert (Hidx : Forall (fun k => Obj.array_index k = None)
                        (Obj.keys [("B", VNumber 5);
                                   (SOURCE_COLUMN_NAME, VString "own");
                                   ("C", VNumber 6)]))
    by (repeat constructor).
  split; [exact Hwf|]. split; [exact Hidx|].
  rewrite (tagged_row_provenance_first "Mar" _ Hwf Hidx). reflexivity.
Defined.

Lemma tagged_row_index_key_first_witness :
  Exists (fun k => is_Some (Obj.array_index k))
         (Obj.keys [("A", VNumber 2); ("2020", VNumber 1)])
  /\ exists k v rest,
      tagged_row "Jan" [("A", VNumber 2); ("2020", VNumber 1)] = (k, v) :: rest
      /\ is_Some (Obj.array_index k) /\ k <> SOURCE_COLUMN_NAME.
Proof.
  assert (Hex : Exists (fun k => is_Some (Obj.array_index k))
                       (Obj.keys [("A", VNumber 2); ("2020", VNumber 1)])).
  { apply Exists_cons_tl, Exists_cons_hd. by eexists. }
  split; [exact Hex|].
  exact (tagged_row_index_key_first "Jan" _ Hex).
Defined.

(** ** The headers of a growing and of a merged table *)

Section HeadersMore.

Lemma Set_add_extends (k : string) (hs : list string) :
  exists extra, Set_add k hs = hs ++ extra.
Proof.
  unfold Set_add. case_decide; [exists []; by rewrite app_nil_r | by eexists].
Qed.

Lemma add_keys_extends (ks hs : list string) :
  exists extra, foldl (fun hs key => Set_add key hs) hs ks = hs ++ extra.
Proof.
  revert hs. induction ks as [|k ks IH]; intros hs; simpl.
  - exists []. by rewrite app_nil_r.
  - destruct (Set_add_extends k hs) as [e1 ->].
    destruct (IH (hs ++ e1)) as [e2 ->].
    exists (e1 ++ e2). by rewrite (assoc_L (++)).
Qed.

Lemma header_set_extends (data : list ExcelRow) (hs : list string) :
  exists extra, header_set hs data = hs ++ extra.
Proof.
  unfold header_set. revert hs. induction data as [|row data IH]; intros hs; simpl.
  - exists []. by rewrite app_nil_r.
  - destruct (add_keys_extends (Obj.keys row) hs) as [e1 ->].
    destruct (IH (hs ++ e1)) as [e2 ->].
    exists (e1 ++ e2). by rewrite (assoc_L (++)).
Qed.

Lemma filter_ne_idemp (x : string) (l : list string) :
  filter (fun h => h <> x) (filter (fun h => h <> x) l)
  = filter (fun h => h <> x) l.
Proof.
  induction l as [|a l IH]; [done|]. rewrite filter_cons.
  destruct (decide (a <> x)) as [Ha|Ha]; [|done].
  by rewrite filter_cons_True, IH.
Qed.

Lemma filter_ne_absent (x : string) (l : list string) :
  x ∉ l -> filter (fun h => h <> x) l = l.
Proof.
  induction l as [|a l IH]; [done|]. intros [Ha Hl]%not_elem_of_cons.
  rewrite filter_cons_True by done. by rewrite IH.
Qed.

Lemma getHeadersFromData_rest (data : list ExcelRow) :
  filter (fun h => h <> SOURCE_COLUMN_NAME) (getHeadersFromData data)
  = filter (fun h => h <> SOURCE_COLUMN_NAME) (header_set [] data).
Proof.
  unfold getHeadersFromData, header_set.
  destruct (decide (length data = 0)) as [Hlen|Hlen]; [by destruct data|].
  simpl. case_decide; [|done].
  rewrite filter_cons_False by tauto. apply filter_ne_idemp.
Qed.

Lemma getHeadersFromData_cases (data : list ExcelRow) :
  getHeadersFromData data
  = (if decide (SOURCE_COLUMN_NAME ∈ key_scan data)
     then [SOURCE_COLUMN_NAME] else [])
    ++ filter (fun h => h <> SOURCE_COLUMN_NAME) (header_set [] data).
Proof.
  unfold getHeadersFromData, header_set.
  destruct (decide (length data = 0)) as [Hlen|Hlen].
  - destruct data; [|done].
    by destruct (decide (SOURCE_COLUMN_NAME ∈ key_scan []))
      as [[]%elem_of_nil|_].
  - destruct (scanned_rows data [] [] scanned_nil) as (Hnd & Hin & Hs).
    simpl in *.
    destruct (decide (SOURCE_COLUMN_NAME ∈ key_scan data)) as [Hsrc|Hsrc].
    + by rewrite decide_True by (by apply Hin).
    + rewrite decide_False by (by rewrite Hin). simpl.
      symmetry. apply filter_ne_absent. by rewrite Hin.
Qed.

End HeadersMore.

(** X5. Merging more rows never reorders the columns found so far: apart
    from the Provenance Column, the headers of a table are a prefix of the
    headers of the table with further rows appended; when the table
    already has the Provenance Column, this holds of the whole header
    list. *)
Theorem getHeadersFromData_append_stable (data more : list ExcelRow) :
  filter (fun h => h <> SOURCE_COLUMN_NAME) (getHeadersFromData data)
    `prefix_of`
    filter (fun h => h <> SOURCE_COLUMN_NAME) (getHeadersFromData (data ++ more))
  /\ (SOURCE_COLUMN_NAME ∈ key_scan data ->
      getHeadersFromData data `prefix_of` getHeadersFromData (data ++ more)).
Proof.
  assert (Hext : exists extra,
             header_set [] (data ++ more) = header_set [] data ++ extra).
  { unfold header_set. rewrite foldl_app. apply header_set_extends. }
  destruct Hext as [extra Hext]. split.
  - rewrite !getHeadersFromData_rest, Hext, filter_app. by eexists.
  - intros Hsrc. rewrite !getHeadersFromData_cases, Hext, filter_app.
    rewrite decide_True by done.
    rewrite decide_True
      by (unfold key_scan; rewrite fmap_app, concat_app, elem_of_app; by left).
    rewrite (assoc_L (++)). by eexists.
Qed.

(** ** What a merge leaves behind *)

Section MergeOutcomes.
Context `{Codec}.

Lemma tagged_row_has_source (n : string) (row : ExcelRow) :
  SOURCE_COLUMN_NAME ∈ Obj.keys (tagged_row n row).
Proof.
  unfold tagged_row. apply ObjKeys.elem_of_keys_spread. right.
  apply ObjKeys.elem_of_keys_set. by left.
Qed.

Lemma merges_to_tagged (st : AppState) (rows : list ExcelRow) (evs : list Event) :
  merges_to st rows evs ->
  Forall (fun r => SOURCE_COLUMN_NAME ∈ Obj.keys r) rows.
Proof.
  intros [wbs _ _|file0 rest wb _ _ _ _]; apply Forall_forall; intros r Hr.
  - apply elem_of_concat in Hr as (l & (wb & -> & _)%list_elem_of_fmap & Hr).
    apply elem_of_workbook_rows in Hr as (n & src & _ & _ & ->).
    apply tagged_row_has_source.
  - apply elem_of_selected_rows in Hr as (n & src & _ & _ & ->).
    apply tagged_row_has_source.
Qed.

Lemma handleMerge_outcomes (w : World) :
  files (ui w) <> [] ->
  exists w' evs,
    handleMerge w = (Ok tt, w')
    /\ trace w'
       = trace w ++ [EvSetIsLoading true; EvSetError None; EvSetMergedData None]
                 ++ evs
    /\ mergeMode (ui w') = mergeMode (ui w)
    /\ files (ui w') = files (ui w)
    /\ singleFileSheets (ui w') = singleFileSheets (ui w)
    /\ isLoading (ui w') = false
    /\ merge_end w w' evs.
Proof.
  intros Hfiles.
  destruct (merge_cases (ui w) Hfiles)
    as [(rows & evs & Hm)|[(file & evs & Hm)|[Hmode Hsel]]].
  - pose proof (handleMerge_merges _ _ _ Hfiles Hm) as Hrun.
    destruct (decide (length rows = 0)) as [Hlen|Hlen].
    + eexists _, _. split; [exact Hrun|]. simpl.
      split; [by rewrite <- !(assoc_L (++))|]. do 4 (split; [done|]).
      destruct rows; [|done]. by apply end_empty.
    + eexists _, _. split; [exact Hrun|]. simpl.
      split; [by rewrite <- !(assoc_L (++))|]. do 4 (split; [done|]).
      apply end_table; [done | by destruct rows | done..].
  - eexists _, _. split; [by apply handleMerge_fails|]. simpl.
    split; [by rewrite <- !(assoc_L (++))|]. do 4 (split; [done|]).
    by apply end_failed.
  - eexists _, _. split; [by apply handleMerge_no_selection|]. simpl.
    split; [by rewrite <- !(assoc_L (++))|]. do 4 (split; [done|]).
    by apply end_no_selection.
Qed.

End MergeOutcomes.

Section AfterMerge.
Context `{Codec}.

(** X6. After a merge with files, the header list of the session is empty
    (no table was stored) or starts with the Provenance Column, which does
    not occur again. *)
Theorem headers_after_merge (w : World) :
  files (ui w) <> [] ->
  headers (ui (handleMerge w).2) = []
  \/ exists rest,
      headers (ui (handleMerge w).2) = SOURCE_COLUMN_NAME :: rest
      /\ SOURCE_COLUMN_NAME ∉ rest.
Proof.
  intros Hfiles.
  destruct (handleMerge_outcomes w Hfiles)
    as (w' & evs & Hrun & _ & _ & _ & _ & _ & Hend).
  rewrite Hrun. simpl. unfold headers.
  destruct Hend as [rows evs Hm Hne Htable _| ? _ Htable _| ? ? _ Htable _
                   | _ _ Htable _]; rewrite Htable; [|by left..].
  right. rewrite getHeadersFromData_cases.
  apply merges_to_tagged in Hm. destruct rows as [|r rows]; [done|].
  apply Forall_cons in Hm as [Hr _].
  rewrite decide_True by (unfold key_scan; simpl; rewrite elem_of_app; by left).
  eexists. split; [reflexivity|]. rewrite list_elem_of_filter. by intros [? _].
Qed.

(** X7. [handleMerge] never throws and never writes [mergeMode], [files]
    or [singleFileSheets]; it only adds to the trace; and after a call
    with files the loading flag is off. *)
Theorem handleMerge_keeps_session (w : World) :
  exists w',
    handleMerge w = (Ok tt, w')
    /\ mergeMode (ui w') = mergeMode (ui w)
    /\ files (ui w') = files (ui w)
    /\ singleFileSheets (ui w') = singleFileSheets (ui w)
    /\ trace w `prefix_of` trace w'
    /\ (files (ui w) <> [] -> isLoading (ui w') = false).
Proof.
  destruct (files (ui w)) as [|file0 rest] eqn:Hfs.
  - eexists. split; [by apply handleMerge_no_files|]. simpl.
    do 3 (split; [done|]). split; [by eexists | done].
  - assert (Hfiles : files (ui w) <> []) by (by rewrite Hfs).
    destruct (handleMerge_outcomes w Hfiles)
      as (w' & evs & Hrun & Htrace & Hmode & Hfiles' & Hsheets & Hload & _).
    exists w'. split; [done|]. split; [done|].
    split; [by rewrite Hfiles'|]. split; [done|].
    split; [rewrite Htrace; by eexists | done].
Qed.

(** X8. After a merge with files exactly one of the two is present: an
    error message or a merged table. *)
Theorem handleMerge_error_xor_table (w : World) :
  files (ui w) <> [] ->
  error (ui (handleMerge w).2) = None
  <-> is_Some (mergedData (ui (handleMerge w).2)).
Proof.
  intros Hfiles.
  destruct (handleMerge_outcomes w Hfiles)
    as (w' & evs & Hrun & _ & _ & _ & _ & _ & Hend).
  rewrite Hrun. simpl.
  destruct Hend as [rows evs Hm Hne Htable Herr| ? _ Htable Herr
                   | ? ? _ Htable Herr| _ _ Htable Herr];
    rewrite Htable, Herr.
  - split; [by eexists | done].
  - split; [done | by intros [? ?]].
  - split; [done | by intros [? ?]].
  - split; [done | by intros [? ?]].
Qed.

(** X9. The catch-all message of [handleMerge] is never shown: whatever
    goes wrong inside a merge function leaves it as an [Error] that names
    the file. *)
Theorem handleMerge_never_unknown_error (w : World) :
  error (ui (handleMerge w).2) <> Some "Đã xảy ra lỗi không xác định.".
Proof.
  destruct (files (ui w)) as [|file0 rest] eqn:Hfs.
  - rewrite (handleMerge_no_files w Hfs). simpl. discriminate.
  - assert (Hfiles : files (ui w) <> []) by (by rewrite Hfs).
    destruct (handleMerge_outcomes w Hfiles)
      as (w' & evs & Hrun & _ & _ & _ & _ & _ & Hend).
    rewrite Hrun. simpl.
    destruct Hend as [rows evs Hm Hne Htable Herr| ? _ Htable Herr
                     | ? ? _ Htable Herr| _ _ Htable Herr];
      rewrite Herr; discriminate.
Qed.

(** X10. The download after a merge with files: if the merge ran to its
    end with at least one row, the whole fresh table goes to the codec, as
    one sheet called MergedData, and is written to DuLieuGop.xlsx;
    in every other case (no row, a file that does not decode, nothing
    selected) the download does nothing, so the table of an earlier merge
    is never exported. *)
Theorem handleDownload_after_merge (w : World) :
  files (ui w) <> [] ->
  (forall rows evs,
      merges_to (ui w) rows evs ->
      handleDownload (ui (handleMerge w).2)
      = if decide (0 < length rows)
        then [CallJsonToSheet rows; CallBookNew;
              CallBookAppendSheet "MergedData"; CallWriteFile "DuLieuGop.xlsx"]
        else [])
  /\ (forall file evs,
         merge_fails (ui w) file evs ->
         handleDownload (ui (handleMerge w).2) = [])
  /\ (mergeMode (ui w) = ModeSheets ->
      selected_names (singleFileSheets (ui w)) = [] ->
      handleDownload (ui (handleMerge w).2) = []).
Proof.
  intros Hfiles. split; [|split].
  - intros rows evs Hm. rewrite (handleMerge_merges _ _ _ Hfiles Hm).
    unfold handleDownload. simpl.
    destruct (decide (length rows = 0)) as [Hlen|Hlen]; simpl.
    + by rewrite decide_False by lia.
    + by rewrite !decide_True by lia.
  - intros file evs Hm. by rewrite (handleMerge_fails _ _ _ Hfiles Hm).
  - intros Hmode Hsel. by rewrite (handleMerge_no_selection _ Hfiles Hmode Hsel).
Qed.

Lemma existsb_selected_names (sheets : list SheetEntry) :
  existsb selected sheets = true -> selected_names sheets <> [].
Proof.
  unfold selected_names. induction sheets as [|s sheets IH]; simpl; [done|].
  rewrite filter_cons. destruct (decide (selected s = true)) as [Hs|Hs]; [done|].
  destruct (selected s); [done|]. exact IH.
Qed.

(** X11. When the merge button is enabled and, in sheets mode, the sheet
    list is not empty, [handleMerge] passes both local checks: right after
    clearing the state it reads the bytes of the first file. *)
Theorem enabled_merge_reads_first_file (w : World) :
  isMergeDisabled (ui w) = false ->
  (mergeMode (ui w) = ModeSheets -> singleFileSheets (ui w) <> []) ->
  exists file0 rest evs,
    files (ui w) = file0 :: rest
    /\ trace (handleMerge w).2
       = trace w ++ [EvSetIsLoading true; EvSetError None; EvSetMergedData None]
                 ++ EvArrayBuffer file0 :: evs.
Proof.
  unfold isMergeDisabled. intros Hen Hsheets.
  apply orb_false_iff in Hen as [[Hfs%bool_decide_eq_false _]%orb_false_iff Hsel].
  destruct (files (ui w)) as [|file0 rest] eqn:Hfiles; [done|].
  assert (Hne : files (ui w) <> []) by (by rewrite Hfiles).
  assert (Hsel' : mergeMode (ui w) = ModeSheets ->
                  selected_names (singleFileSheets (ui w)) <> []).
  { intros Hmode. specialize (Hsheets Hmode). apply existsb_selected_names.
    rewrite Hmode in Hsel. rewrite bool_decide_eq_true_2 in Hsel by done.
    rewrite bool_decide_eq_true_2 in Hsel
      by (destruct (singleFileSheets (ui w)); simpl; [done | lia]).
    simpl in Hsel. by apply negb_false_iff in Hsel. }
  assert (Hfirst : forall evs0 : list Event,
             (exists rows, merges_to (ui w) rows evs0)
             \/ (exists file, merge_fails (ui w) file evs0) ->
             exists evs1, evs0 = EvArrayBuffer file0 :: evs1).
  { intros evs0 [[rows Hm]|[file Hm]].
    - destruct Hm as [wbs _ _|f0 rest' wb _ Hf0 _ _].
      + rewrite Hfiles. simpl. unfold decode_events at 1. by eexists.
      + rewrite Hfiles in Hf0. injection Hf0 as <- <-.
        unfold decode_events. by eexists.
    - destruct Hm as [pre post f e wbs _ Hf _ _|f0 rest' e _ Hf0 _ _].
      + rewrite Hfiles in Hf. destruct pre as [|p pre]; simpl in *.
        * injection Hf as <- <-. unfold decode_events. by eexists.
        * injection Hf as <- ->. unfold decode_events at 1. simpl. by eexists.
      + rewrite Hfiles in Hf0. injection Hf0 as <- <-.
        unfold decode_events. by eexists. }
  exists file0, rest.
  destruct (merge_cases (ui w) Hne)
    as [(rows & evs & Hm)|[(file & evs & Hm)|[Hmode Hnone]]].
  - destruct (Hfirst evs) as [evs1 ->]; [left; by eexists|].
    rewrite (handleMerge_merges _ _ _ Hne Hm).
    destruct (decide (length rows = 0)); simpl; eexists;
      (split; [done|]); by rewrite <- !(assoc_L (++)).
  - destruct (Hfirst evs) as [evs1 ->]; [right; by eexists|].
    rewrite (handleMerge_fails _ _ _ Hne Hm). simpl. eexists.
    split; [done|]. by rewrite <- !(assoc_L (++)).
  - by destruct (Hsel' Hmode).
Qed.

(** X12. Neither merge function writes the component state; what they
    add to the trace are file reads, parser calls and console messages, no
    setter call; and what they throw is always an [Error]. *)
Theorem merge_functions_frame
        (fs : list File) (file : File) (sel : list string) (w : World) :
  (ui (processMultipleFiles fs w).2 = ui w
   /\ (exists evs, trace (processMultipleFiles fs w).2 = trace w ++ evs
                   /\ Forall (fun ev => is_setter ev = false) evs)
   /\ (processMultipleFiles fs w).1 <> Throw JsOther)
  /\ (ui (processSheetsInFile file sel w).2 = ui w
      /\ (exists evs, trace (processSheetsInFile file sel w).2 = trace w ++ evs
                      /\ Forall (fun ev => is_setter ev = false) evs)
      /\ (processSheetsInFile file sel w).1 <> Throw JsOther).
Proof.
  assert (Hdec : forall f, Forall (fun ev => is_setter ev = false) (decode_events f)).
  { intros f. unfold decode_events. destruct (arrayBuffer f); by repeat constructor. }
  assert (Hdecs : forall l, Forall (fun ev => is_setter ev = false)
                                   (concat (decode_events <$> l))).
  { induction l as [|f l IH]; [constructor|].
    change (Forall (fun ev => is_setter ev = false)
                   (decode_events f ++ concat (decode_events <$> l))).
    by apply Forall_app. }
  split.
  - unfold processMultipleFiles.
    destruct (decode_all_or_first_failure fs)
      as [[wbs Hall]|(pre & f & post & e & wbs & -> & Hpre & He)].
    + rewrite (for_each_file_ok _ _ _ _ Hall). unfold log. cbn [fst snd ui trace].
      split; [done|]. split; [|done]. eexists. split; [done|]. apply Hdecs.
    + rewrite (for_each_file_fail _ _ _ _ _ _ _ Hpre He).
      unfold log. cbn [fst snd ui trace].
      split; [done|]. split; [|done]. eexists. split; [done|].
      apply Forall_app. split; [apply Hdecs|].
      apply Forall_app. split; [apply Hdec | by repeat constructor].
  - destruct (decode file) as [wb|e] eqn:Hfile.
    + rewrite (processSheetsInFile_ok _ _ _ _ Hfile).
      unfold log. cbn [fst snd ui trace].
      split; [done|]. split; [|done]. eexists. split; [done|]. apply Hdec.
    + rewrite (processSheetsInFile_fail _ _ _ _ Hfile).
      unfold log. cbn [fst snd ui trace].
      split; [done|]. split; [|done]. eexists. split; [done|].
      apply Forall_app. split; [apply Hdec | by repeat constructor].
Qed.

(** X13. Merging all the sheets of one file in sheets mode, in the order
    of the workbook, does what files mode does on that file alone, as long
    as every listed sheet exists: same rows, same effects. *)
Theorem all_sheets_selected_is_files_mode
        (file : File) (wb : Workbook Worksheet) (w : World) :
  decode file = Ok wb ->
  Forall (fun n => is_Some (Sheets wb !! n)) (SheetNames wb) ->
  processSheetsInFile file (SheetNames wb) w = processMultipleFiles [file] w.
Proof.
  intros Hfile Hall. rewrite (processSheetsInFile_ok _ _ _ _ Hfile).
  unfold processMultipleFiles.
  rewrite (for_each_file_ok [file] [wb]) by (by repeat constructor).
  simpl. rewrite !app_nil_r. do 2 f_equal. unfold workbook_rows.
  f_equal. apply Forall_fmap_ext_1. eapply Forall_impl; [exact Hall|].
  intros n [ws Hws]. unfold selected_rows, sheet_rows. by rewrite Hws.
Qed.

End AfterMerge.

(** ** The sheet selection *)

Section Selection.
Context `{Codec}.

Lemma selected_names_sublist (sheets : list SheetEntry) :
  selected_names sheets `sublist_of` (name <$> sheets).
Proof. unfold selected_names. apply fmap_sublist, sublist_filter. Qed.

Lemma apply_action_frame (st : AppState) (a : SelectionAction) :
  name <$> singleFileSheets (apply_action st a) = name <$> singleFileSheets st
  /\ files (apply_action st a) = files st
  /\ mergedData (apply_action st a) = mergedData st
  /\ mergeMode (apply_action st a) = mergeMode st.
Proof.
  destruct a as [n b|b]; simpl; (split; [|done]);
    rewrite <- list_fmap_compose; apply list_fmap_ext; intros _ s _; simpl;
    [by case_decide | done].
Qed.

(** X14. Whatever boxes the user ticks and in whatever order, the sheet
    list keeps its names, and the selected names are a sublist of them in
    the order of the listing: the order of ticking never reaches
    [processSheetsInFile].  The chosen file, the table and the mode are
    not written. *)
Theorem selection_follows_listing_order
        (st : AppState) (actions : list SelectionAction) :
  name <$> singleFileSheets (foldl apply_action st actions)
  = name <$> singleFileSheets st
  /\ selected_names (singleFileSheets (foldl apply_action st actions))
       `sublist_of` (name <$> singleFileSheets st)
  /\ files (foldl apply_action st actions) = files st
  /\ mergedData (foldl apply_action st actions) = mergedData st
  /\ mergeMode (foldl apply_action st actions) = mergeMode st.
Proof.
  assert (Hframe :
            name <$> singleFileSheets (foldl apply_action st actions)
            = name <$> singleFileSheets st
            /\ files (foldl apply_action st actions) = files st
            /\ mergedData (foldl apply_action st actions) = mergedData st
            /\ mergeMode (foldl apply_action st actions) = mergeMode st).
  { revert st. induction actions as [|a actions IH]; intros st; simpl; [done|].
    destruct (IH (apply_action st a)) as (-> & -> & -> & ->).
    apply apply_action_frame. }
  destruct Hframe as (Hnames & Hfiles & Htable & Hmode).
  split; [done|]. split; [|done].
  rewrite <- Hnames. apply selected_names_sublist.
Qed.

Lemma elem_of_selected_names (m : string) (sheets : list SheetEntry) :
  m ∈ selected_names sheets
  <-> exists s, s ∈ sheets /\ name s = m /\ selected s = true.
Proof.
  unfold selected_names. rewrite list_elem_of_fmap. split.
  - intros (s & -> & [Hsel Hs]%list_elem_of_filter). by exists s.
  - intros (s & Hs & <- & Hsel). exists s. split; [done|].
    by apply list_elem_of_filter.
Qed.

(** X15. After [handleSheetSelectionChange n b] the name [n] is selected
    exactly if [b] is true and the sheet is listed; every other name is
    selected exactly if it was before. *)
Theorem handleSheetSelectionChange_selects
        (n : string) (b : bool) (st : AppState) (m : string) :
  m ∈ selected_names (singleFileSheets (handleSheetSelectionChange n b st))
  <-> (m = n /\ b = true /\ n ∈ name <$> singleFileSheets st)
      \/ (m <> n /\ m ∈ selected_names (singleFileSheets st)).
Proof.
  unfold handleSheetSelectionChange.
  change (singleFileSheets (put_sheets ?l st)) with l.
  rewrite !elem_of_selected_names. split.
  - intros (s' & (s & -> & Hs)%list_elem_of_fmap & Hname & Hsel).
    destruct (decide (name s = n)) as [Hn|Hn]; simpl in *.
    + left. subst. split; [done|]. split; [done|].
      by apply list_elem_of_fmap_2.
    + right. split; [congruence|]. by exists s.
  - intros [(-> & -> & (s & -> & Hs)%list_elem_of_fmap)|(Hm & s & Hs & Hname & Hsel)].
    + exists {| name := name s; selected := true |}. split; [|done].
      apply list_elem_of_fmap. exists s. split; [|done]. by rewrite decide_True.
    + exists s. split; [|done].
      apply list_elem_of_fmap. exists s. split; [|done].
      rewrite decide_False; [done | congruence].
Qed.

(** X16. Select-all selects every listed name in the order of the list;
    select-none leaves nothing selected, and a merge in sheets mode with a
    file chosen then ends with the empty-selection message. *)
Theorem toggleAllSheets_all_or_none (st : AppState) (t : list Event) :
  selected_names (singleFileSheets (toggleAllSheets true st))
  = name <$> singleFileSheets st
  /\ selected_names (singleFileSheets (toggleAllSheets false st)) = []
  /\ (mergeMode st = ModeSheets -> files st <> [] ->
      error (ui (handleMerge {| ui := toggleAllSheets false st; trace := t |}).2)
      = Some "Vui lòng chọn ít nhất một sheet để gộp.").
Proof.
  assert (Hnone : selected_names (singleFileSheets (toggleAllSheets false st)) = []).
  { unfold toggleAllSheets.
    change (singleFileSheets (put_sheets ?l st)) with l. unfold selected_names.
    induction (singleFileSheets st) as [|s sheets IH]; [done|].
    rewrite fmap_cons, filter_cons_False by (simpl; done). exact IH. }
  split; [|split; [exact Hnone|]].
  - unfold toggleAllSheets.
    change (singleFileSheets (put_sheets ?l st)) with l. unfold selected_names.
    induction (singleFileSheets st) as [|s sheets IH]; [done|].
    rewrite fmap_cons, filter_cons_True by (simpl; done).
    rewrite !fmap_cons. simpl. by f_equal.
  - intros Hmode Hfiles.
    by rewrite (handleMerge_no_selection
                  {| ui := toggleAllSheets false st; trace := t |}).
Qed.

End Selection.

(** ** Choosing files and changing the mode *)

Section Choosing.
Context `{Codec}.
Variable read_names : ArrayBuffer -> Outcome (list string).

(** X17. Choosing files, in either mode and whatever the files, and
    changing the mode both drop the merged table: afterwards the header
    list is empty and the download does nothing. *)
Theorem choosing_drops_the_table
        (selectedFiles : list File) (mode : MergeMode) (st : AppState) :
  mergedData (handleFilesSelected read_names selectedFiles st) = None
  /\ headers (handleFilesSelected read_names selectedFiles st) = []
  /\ handleDownload (handleFilesSelected read_names selectedFiles st) = []
  /\ mergedData (handleModeChange mode st) = None
  /\ headers (handleModeChange mode st) = []
  /\ handleDownload (handleModeChange mode st) = [].
Proof.
  assert (Htable : mergedData (handleFilesSelected read_names selectedFiles st)
                   = None).
  { unfold handleFilesSelected, extractSheetNames.
    destruct (mergeMode st); [done|]. destruct selectedFiles as [|f fs]; [done|].
    destruct (arrayBuffer f) as [buf|e]; [|done].
    by destruct (read_names buf). }
  unfold headers, handleDownload. rewrite Htable. by repeat split.
Qed.

Lemma names_of_listed (names : list string) :
  name <$> ((fun n => {| name := n; selected := true |}) <$> names) = names.
Proof.
  induction names as [|n l IH]; [done|]. rewrite !fmap_cons. simpl. by f_equal.
Qed.

Lemma selected_of_listed (names : list string) :
  selected_names ((fun n => {| name := n; selected := true |}) <$> names) = names.
Proof.
  unfold selected_names. induction names as [|n l IH]; [done|].
  rewrite fmap_cons, filter_cons_True by (simpl; done).
  rewrite fmap_cons. simpl. by f_equal.
Qed.

(** X18. In sheets mode, choosing files of which the first one is
    readable keeps that file alone, lists its sheets in the order of the
    workbook with every one selected, and leaves the merge button
    enabled. *)
Theorem choosing_a_file_lists_its_sheets
        (f : File) (others : list File) (buf : ArrayBuffer)
        (names : list string) (st : AppState) :
  mergeMode st = ModeSheets ->
  arrayBuffer f = Ok buf ->
  read_names buf = Ok names ->
  files (handleFilesSelected read_names (f :: others) st) = [f]
  /\ name <$> singleFileSheets (handleFilesSelected read_names (f :: others) st)
     = names
  /\ selected_names
       (singleFileSheets (handleFilesSelected read_names (f :: others) st))
     = names
  /\ error (handleFilesSelected read_names (f :: others) st) = None
  /\ isLoading (handleFilesSelected read_names (f :: others) st) = false
  /\ isMergeDisabled (handleFilesSelected read_names (f :: others) st) = false.
Proof.
  intros Hmode Hbuf Hnames. unfold handleFilesSelected, extractSheetNames.
  rewrite Hmode, Hbuf, Hnames. simpl.
  pose proof (names_of_listed names) as Hn.
  pose proof (selected_of_listed names) as Hs.
  split; [done|]. split; [exact Hn|]. split; [exact Hs|]. do 2 (split; [done|]).
  unfold isMergeDisabled. simpl.
  destruct names as [|n l].
  - rewrite (bool_decide_eq_false_2 (0 < _)) by (simpl; lia).
    by rewrite andb_false_r.
  - rewrite fmap_cons. simpl. by rewrite andb_false_r.
Qed.

(** X19. In sheets mode, when the first chosen file cannot be read, the
    file list is emptied and the unreadable-file message is set, but the
    sheet list of the file chosen before stays; the merge button is
    disabled, and a merge invoked all the same only answers that no file
    is chosen. *)
Theorem unreadable_file_is_dropped
        (f : File) (others : list File) (st : AppState) (t : list Event) :
  mergeMode st = ModeSheets ->
  (forall buf names, arrayBuffer f = Ok buf -> read_names buf <> Ok names) ->
  files (handleFilesSelected read_names (f :: others) st) = []
  /\ error (handleFilesSelected read_names (f :: others) st)
     = Some "Không thể đọc được file. Vui lòng kiểm tra lại file có bị lỗi không."
  /\ singleFileSheets (handleFilesSelected read_names (f :: others) st)
     = singleFileSheets st
  /\ isLoading (handleFilesSelected read_names (f :: others) st) = false
  /\ isMergeDisabled (handleFilesSelected read_names (f :: others) st) = true
  /\ error (ui (handleMerge
                  {| ui := handleFilesSelected read_names (f :: others) st;
                     trace := t |}).2)
     = Some "Vui lòng chọn file.".
Proof.
  intros Hmode Hbad.
  assert (Hst : handleFilesSelected read_names (f :: others) st
                = put_loading false
                    (put_files []
                       (put_error
                          (Some "Không thể đọc được file. Vui lòng kiểm tra lại file có bị lỗi không.")
                          (put_error None
                             (put_loading true
                                (put_files [f]
                                   (put_error None (put_table None st)))))))).
  { unfold handleFilesSelected, extractSheetNames. rewrite Hmode.
    destruct (arrayBuffer f) as [buf|e] eqn:Hbuf; [|done].
    destruct (read_names buf) as [names|e] eqn:Hnames; [|done].
    by destruct (Hbad buf names). }
  rewrite Hst. do 5 (split; [done|]).
  by rewrite handleMerge_no_files.
Qed.

(** X20. In sheets mode, choosing a file and merging without touching the
    selection stores the rows of all its sheets in workbook order, the
    table that files mode yields for that file, provided the listing
    agrees with the workbook and every listed sheet exists; no table is
    stored when there is no row. *)
Theorem choose_then_merge_takes_every_sheet
        (f : File) (others : list File) (buf : ArrayBuffer)
        (wb : Workbook Worksheet) (st : AppState) (t : list Event) :
  mergeMode st = ModeSheets ->
  arrayBuffer f = Ok buf ->
  XLSX_read buf = Ok wb ->
  read_names buf = Ok (SheetNames wb) ->
  Forall (fun n => is_Some (Sheets wb !! n)) (SheetNames wb) ->
  mergedData (ui (handleMerge
                    {| ui := handleFilesSelected read_names (f :: others) st;
                       trace := t |}).2)
  = if decide (length (workbook_rows wb) = 0) then None
    else Some (workbook_rows wb).
Proof.
  intros Hmode Hbuf Hwb Hnames Hall.
  assert (Hst : files (handleFilesSelected read_names (f :: others) st) = [f]
                /\ selected_names
                     (singleFileSheets
                        (handleFilesSelected read_names (f :: others) st))
                   = SheetNames wb
                /\ mergeMode (handleFilesSelected read_names (f :: others) st)
                   = ModeSheets).
  { unfold handleFilesSelected, extractSheetNames.
    rewrite Hmode, Hbuf, Hnames. simpl.
    split; [done|]. split; [apply selected_of_listed | done]. }
  destruct Hst as (Hfiles & Hsel & Hm).
  set (st' := handleFilesSelected read_names (f :: others) st) in *.
  set (w := {| ui := st'; trace := t |}).
  assert (Hne : files (ui w) <> []) by (simpl; by rewrite Hfiles).
  assert (Hrows : concat (selected_rows wb <$> SheetNames wb) = workbook_rows wb).
  { unfold workbook_rows. f_equal. apply Forall_fmap_ext_1.
    eapply Forall_impl; [exact Hall|]. intros n [ws Hws].
    unfold selected_rows, sheet_rows. by rewrite Hws. }
  destruct (SheetNames wb) as [|n names] eqn:Hsn.
  - rewrite (handleMerge_no_selection w Hne); [|done..].
    simpl. unfold workbook_rows. by rewrite Hsn.
  - assert (Hmerge : merges_to (ui w) (workbook_rows wb) (decode_events f)).
    { rewrite <- Hrows, <- Hsel.
      apply (merges_sheets (ui w) f [] wb); [done..| |].
      - simpl. by rewrite Hsel.
      - unfold decode. by rewrite Hbuf. }
    rewrite (handleMerge_merges w _ _ Hne Hmerge).
    by destruct (decide (length (workbook_rows wb) = 0)).
Qed.

End Choosing.

(** ** The preview table *)

Section PreviewFacts.
Variable String_of_number : Z -> string.
Variable String_of_inherited : string -> string.

(** X21. The preview shows the first hundred rows of the table and no
    more, each with one cell per header; rows after the hundredth never
    change it; the cell in row [i] and column [j] is the text of that
    row's value under that header, and a [null] value is shown as the
    empty text. *)
Theorem DataTable_body_shape (data : list ExcelRow) (hs : list string) :
  length (DataTable_body String_of_number String_of_inherited data hs)
  = min 100 (length data)
  /\ Forall (fun cells => length cells = length hs)
            (DataTable_body String_of_number String_of_inherited data hs)
  /\ (forall more,
         100 <= length data ->
         DataTable_body String_of_number String_of_inherited (data ++ more) hs
         = DataTable_body String_of_number String_of_inherited data hs)
  /\ (forall i j row h,
         i < 100 -> data !! i = Some row -> hs !! j = Some h ->
         DataTable_body String_of_number String_of_inherited data hs !! i
           ≫= (fun cells => cells !! j)
         = Some (cell_text String_of_number String_of_inherited row h))
  /\ (forall row h,
         Obj.get h row = Some VNull ->
         cell_text String_of_number String_of_inherited row h = "").
Proof.
  unfold DataTable_body. split; [|split; [|split; [|split]]].
  - by rewrite length_fmap, length_take.
  - apply Forall_fmap, Forall_forall. intros row _. simpl. apply length_fmap.
  - intros more Hlen. by rewrite take_app_le.
  - intros i j row h Hi Hrow Hh.
    rewrite list_lookup_fmap, lookup_take_lt, Hrow by done. simpl.
    by rewrite list_lookup_fmap, Hh.
  - intros row h Hnull. unfold cell_text. by rewrite Hnull.
Qed.

End PreviewFacts.

(** ** The further properties at concrete sessions *)

Lemma headers_after_merge_witness :
  files (ui Demo.one_corrupt) <> []
  /\ (headers (ui (handleMerge (H := Demo.codec) Demo.one_corrupt).2) = []
      \/ exists rest,
          headers (ui (handleMerge (H := Demo.codec) Demo.one_corrupt).2)
          = SOURCE_COLUMN_NAME :: rest
          /\ SOURCE_COLUMN_NAME ∉ rest).
Proof.
  assert (Hfiles : files (ui Demo.one_corrupt) <> []) by discriminate.
  split; [exact Hfiles|].
  exact (headers_after_merge (H := Demo.codec) Demo.one_corrupt Hfiles).
Defined.

Lemma handleMerge_error_xor_table_witness :
  files (ui Demo.only_blank) <> []
  /\ (error (ui (handleMerge (H := Demo.codec) Demo.only_blank).2) = None
      <-> is_Some (mergedData (ui (handleMerge (H := Demo.codec) Demo.only_blank).2))).
Proof.
  assert (Hfiles : files (ui Demo.only_blank) <> []) by discriminate.
  split; [exact Hfiles|].
  exact (handleMerge_error_xor_table (H := Demo.codec) Demo.only_blank Hfiles).
Defined.

Lemma handleDownload_after_merge_witness :
  files (ui Demo.one_corrupt) <> []
  /\ handleDownload (ui (handleMerge (H := Demo.codec) Demo.one_corrupt).2) = [].
Proof.
  assert (Hfiles : files (ui Demo.one_corrupt) <> []) by discriminate.
  split; [exact Hfiles|].
  destruct (handleDownload_after_merge (H := Demo.codec) Demo.one_corrupt Hfiles)
    as (_ & Hfail & _).
  apply (Hfail Demo.corrupt
               (concat (decode_events (H := Demo.codec) <$> [Demo.F1])
                ++ decode_events (H := Demo.codec) Demo.corrupt)).
  apply (fails_files (H := Demo.codec) (ui Demo.one_corrupt)
                     [Demo.F1] [Demo.F2] Demo.corrupt JsOther [Demo.wb1]).
  - reflexivity.
  - reflexivity.
  - repeat constructor.
  - reflexivity.
Defined.

Lemma enabled_merge_reads_first_file_witness :
  isMergeDisabled (ui Demo.one_corrupt) = false
  /\ (mergeMode (ui Demo.one_corrupt) = ModeSheets ->
      singleFileSheets (ui Demo.one_corrupt) <> [])
  /\ exists file0 rest evs,
      files (ui Demo.one_corrupt) = file0 :: rest
      /\ trace (handleMerge (H := Demo.codec) Demo.one_corrupt).2
         = trace Demo.one_corrupt
             ++ [EvSetIsLoading true; EvSetError None; EvSetMergedData None]
             ++ EvArrayBuffer file0 :: evs.
Proof.
  assert (Hen : isMergeDisabled (ui Demo.one_corrupt) = false) by reflexivity.
  assert (Hsh : mergeMode (ui Demo.one_corrupt) = ModeSheets ->
                singleFileSheets (ui Demo.one_corrupt) <> []) by discriminate.
  split; [exact Hen|]. split; [exact Hsh|].
  exact (enabled_merge_reads_first_file (H := Demo.codec) Demo.one_corrupt Hen Hsh).
Defined.

Lemma all_sheets_selected_is_files_mode_witness :
  decode (H := Demo.codec) Demo.F3 = Ok Demo.wb3
  /\ Forall (fun n => is_Some (Sheets Demo.wb3 !! n)) (SheetNames Demo.wb3)
  /\ processSheetsInFile (H := Demo.codec) Demo.F3 ["Jan"; "Feb"; "Mar"]
       (Demo.session ModeSheets [Demo.F3] [] None)
     = processMultipleFiles (H := Demo.codec) [Demo.F3]
         (Demo.session ModeSheets [Demo.F3] [] None).
Proof.
  assert (Hall : Forall (fun n => is_Some (Sheets Demo.wb3 !! n))
                        (SheetNames Demo.wb3))
    by (repeat constructor; by eexists).
  split; [reflexivity|]. split; [exact Hall|].
  exact (all_sheets_selected_is_files_mode (H := Demo.codec) Demo.F3 Demo.wb3
           (Demo.session ModeSheets [Demo.F3] [] None) eq_refl Hall).
Defined.

Lemma choosing_a_file_lists_its_sheets_witness :
  mergeMode (DemoUI.state ModeSheets [] [] (Some Demo.earlier)) = ModeSheets
  /\ selected_names
       (singleFileSheets
          (handleFilesSelected (H := Demo.codec) DemoUI.read_names
             [Demo.F3; Demo.F1]
             (DemoUI.state ModeSheets [] [] (Some Demo.earlier))))
     = ["Jan"; "Feb"; "Mar"].
Proof.
  split; [reflexivity|].
  destruct (choosing_a_file_lists_its_sheets (H := Demo.codec) DemoUI.read_names
              Demo.F3 [Demo.F1] (Ok Demo.wb3) ["Jan"; "Feb"; "Mar"]
              (DemoUI.state ModeSheets [] [] (Some Demo.earlier))
              eq_refl eq_refl eq_refl)
    as (_ & _ & Hsel & _).
  exact Hsel.
Defined.

Lemma unreadable_file_is_dropped_witness :
  mergeMode (DemoUI.state ModeSheets [Demo.F3] [DemoUI.listed "Jan"] None)
  = ModeSheets
  /\ (forall buf names,
         arrayBuffer (Codec := Demo.codec) Demo.corrupt = Ok buf ->
         DemoUI.read_names buf <> Ok names)
  /\ singleFileSheets
       (handleFilesSelected (H := Demo.codec) DemoUI.read_names [Demo.corrupt]
          (DemoUI.state ModeSheets [Demo.F3] [DemoUI.listed "Jan"] None))
     = [DemoUI.listed "Jan"].
Proof.
  assert (Hbad : forall buf names,
             arrayBuffer (Codec := Demo.codec) Demo.corrupt = Ok buf ->
             DemoUI.read_names buf <> Ok names).
  { intros buf names [= <-]. discriminate. }
  split; [reflexivity|]. split; [exact Hbad|].
  destruct (unreadable_file_is_dropped (H := Demo.codec) DemoUI.read_names
              Demo.corrupt []
              (DemoUI.state ModeSheets [Demo.F3] [DemoUI.listed "Jan"] None)
              [] eq_refl Hbad)
    as (_ & _ & Hsheets & _).
  exact Hsheets.
Defined.

Lemma choose_then_merge_takes_every_sheet_witness :
  mergeMode (DemoUI.state ModeSheets [] [] None) = ModeSheets
  /\ Forall (fun n => is_Some (Sheets Demo.wb3 !! n)) (SheetNames Demo.wb3)
  /\ mergedData
       (ui (handleMerge (H := Demo.codec)
              {| ui := handleFilesSelected (H := Demo.codec) DemoUI.read_names
                         [Demo.F3] (DemoUI.state ModeSheets [] [] None);
                 trace := [] |}).2)
     = Some [ [(SOURCE_COLUMN_NAME, VString "Jan"); ("A", VNumber 1)];
              [(SOURCE_COLUMN_NAME, VString "Feb"); ("A", VNumber 2)];
              [(SOURCE_COLUMN_NAME, VString "Mar"); ("A", VNumber 3)] ].
Proof.
  assert (Hall : Forall (fun n => is_Some (Sheets Demo.wb3 !! n))
                        (SheetNames Demo.wb3))
    by (repeat constructor; by eexists).
  split; [reflexivity|]. split; [exact Hall|].
  etransitivity.
  - exact (choose_then_merge_takes_every_sheet (H := Demo.codec)
             DemoUI.read_names Demo.F3 [] (Ok Demo.wb3) Demo.wb3
             (DemoUI.state ModeSheets [] [] None) []
             eq_refl eq_refl eq_refl eq_refl Hall).
  - reflexivity.
Defined.
